(** * utils/tuner.py: hyperparameter tuners

    A shallow embedding of [src/utils/tuner.py] and the properties of its
    three tuners: [XGBTuner.bayesian_optimisation], [ARIMATuner.grid_search]
    with its three scoring helpers, and the [GARCHTuner] stub.

    Python objects live in a store indexed by references, every method runs
    in a state-and-exception monad over that store, and the external
    libraries (statsmodels, scikit-optimize) are interfaces whose operations
    may raise. *)

From Stdlib Require Import ZArith QArith Lia.
From Stdlib Require Import Floats.SpecFloat.
From stdpp Require Import base option list strings gmap.

Local Open Scope Z_scope.
Local Open Scope string_scope.
Local Open Scope list_scope.

(** ** Python floats

    A score is a Python [float]: an IEEE 754 value, compared with [<].  The
    Standard Library's [spec_float] has the same values (signed zeros,
    infinities, NaN, finite numbers) and [SFltb]/[SFleb] are the IEEE
    comparisons: every comparison with NaN is false. *)

Module PyFloat.

Abbreviation float := spec_float.

(** [float('inf')] *)
Definition inf : float := S754_infinity false.
Definition nan : float := S754_nan.

Definition is_nan (x : float) : bool :=
  match x with S754_nan => true | _ => false end.

(** [x < y], [x <= y] and [x == y] on floats. *)
Definition lt (x y : float) : bool := SFltb x y.
Definition le (x y : float) : bool := SFleb x y.
Definition eq (x y : float) : bool := SFeqb x y.

(** The position of a number on the extended line, as a triple compared
    lexicographically; NaN has no position. *)
Definition key (x : float) : option (Z * Z * Z) :=
  match x with
  | S754_nan => None
  | S754_infinity true => Some (-2, 0, 0)
  | S754_finite true m e => Some (-1, - e, - Z.pos m)
  | S754_zero _ => Some (0, 0, 0)
  | S754_finite false m e => Some (1, e, Z.pos m)
  | S754_infinity false => Some (2, 0, 0)
  end.

Definition key_lt (a b : Z * Z * Z) : Prop :=
  let '(a1, a2, a3) := a in
  let '(b1, b2, b3) := b in
  a1 < b1 \/ (a1 = b1 /\ (a2 < b2 \/ (a2 = b2 /\ a3 < b3))).

Definition key_le (a b : Z * Z * Z) : Prop := key_lt a b \/ a = b.

End PyFloat.

(** ** Exceptions and results *)

Inductive exn : Type :=
| TypeError
| KeyError
| IndexError
| AttributeError
| NotImplementedError
| SystemError
| OtherError (name : string).

(** The exception the specification names for an unknown method.  The
    source defines no such class. *)
Definition InvalidMethodError : exn := OtherError "InvalidMethodError".

Inductive res (A : Type) : Type :=
| Ok (a : A)
| Raise (e : exn).
Arguments Ok {A} a.
Arguments Raise {A} e.

(** ** The object store

    Arguments are passed by reference.  The two kinds of objects the tuners
    receive are a [dict] from parameter names to lists of integers and a
    numeric container (a series, a feature matrix or a target vector), kept
    as its rows of floats. *)

Definition loc := positive.

(** [cfg = (p, q, d)] *)
Definition order : Type := Z * Z * Z.

Inductive pyobj : Type :=
| PyDict (d : gmap string (list Z))
| PyData (rows : list (list PyFloat.float)).

(** What a call leaves behind outside the store: the ARIMA models it
    constructed and fitted, the lines it printed, and the Bayesian searches
    it ran.  [EvPrint method score cfg] is the line
    [f'{method.upper()} score = {score}, cfg = {cfg}']; [EvSearch X y n v] is
    a search of [n] iterations on [X] and [y] with the progress the library
    writes at verbosity [v]. *)
Inductive event : Type :=
| EvARIMA (endog : loc) (cfg : order)
| EvFit (endog : loc) (cfg : order)
| EvPrint (method : string) (score : option PyFloat.float) (cfg : order)
| EvSearch (X y : loc) (n_iter verbose : Z).

Record world : Type := World {
  objs : gmap loc pyobj;
  trace : list event
}.

(** The events in which an ARIMA model is constructed or fitted. *)
Definition is_fit (e : event) : bool :=
  match e with
  | EvARIMA _ _ | EvFit _ _ => true
  | EvPrint _ _ _ | EvSearch _ _ _ _ => false
  end.

(** ** The monad of method bodies *)

Definition M (A : Type) : Type := world -> world * res A.

Global Instance M_ret : MRet M := fun A a w => (w, Ok a).

Global Instance M_bind : MBind M := fun A B f m w =>
  match m w with
  | (w', Ok a) => f a w'
  | (w', Raise e) => (w', Raise e)
  end.

Definition raise {A} (e : exn) : M A := fun w => (w, Raise e).

Definition lift {A} (r : res A) : M A := fun w => (w, r).

Definition emit (e : event) : M unit :=
  fun w => (World (objs w) (trace w ++ [e]), Ok tt).

(** Following a reference.  A Python reference always points to a live
    object, so the [SystemError] branch is never taken from a well-formed
    store. *)
Definition deref (l : loc) : M pyobj := fun w =>
  match objs w !! l with
  | Some o => (w, Ok o)
  | None => (w, Raise SystemError)
  end.

(** [d[key]] on a dict of integer lists. *)
Definition getitem (d : loc) (key : string) : M (list Z) :=
  o ← deref d;
  match o with
  | PyDict m =>
      match m !! key with
      | Some v => mret v
      | None => raise KeyError
      end
  | PyData _ => raise TypeError
  end.

(** [for x in xs: body], threading the local variables [s]. *)
Fixpoint for_each {A S : Type} (xs : list A) (body : A -> S -> M S) (s : S) : M S :=
  match xs with
  | [] => mret s
  | x :: xs' => s' ← body x s; for_each xs' body s'
  end.

(** A call to a method that takes exactly [arity] positional arguments
    besides [self]: any other number raises [TypeError] before the body
    runs. *)
Definition call {A} (arity : nat) (body : list loc -> M A) (args : list loc) : M A :=
  if Nat.eqb (length args) arity then body args else raise TypeError.

(** ** External libraries

    [statsmodels.tsa.arima.model.ARIMA]: constructing a model from data and
    an order tuple, and fitting it, may each raise.  A fit result exposes
    [aic], [bic] and the array [bse] of coefficient standard errors. *)

Record ARIMAResults : Type := {
  aic : PyFloat.float;
  bic : PyFloat.float;
  bse : list PyFloat.float
}.

Class Statsmodels : Type := {
  arima_model : Type;
  ARIMA : pyobj -> order -> res arima_model;
  ARIMA_fit : arima_model -> res ARIMAResults
}.

(** [skopt.space]: [Integer(low, high)] and [Real(low, high)], closed
    ranges.  The bounds of a [Real] are the decimal literals of the source,
    kept as rationals. *)
Inductive dimension : Type :=
| Integer (low high : Z)
| Real (low high : Q).

(** [XGBRegressor()] with its default arguments. *)
Inductive regressor : Type :=
| XGBRegressor.

(** [skopt.BayesSearchCV]: the arguments of the search controller.  The
    source passes [n_iter] and [verbose] by keyword and leaves [cv] at its
    default [None]. *)
Record BayesSearchCV : Type := {
  estimator : regressor;
  search_spaces : gmap string dimension;
  n_iter : Z;
  cv : option Z;
  verbose : Z
}.

Definition BayesSearchCV_new (est : regressor) (spaces : gmap string dimension)
    (n_iter verbose : Z) : BayesSearchCV :=
  {| estimator := est; search_spaces := spaces; n_iter := n_iter;
     cv := None; verbose := verbose |}.

(** The number of cross-validation folds of a controller: [cv=None] selects
    scikit-learn's default 5-fold split, the [k=5] of the docstring of
    [bayesian_optimisation]. *)
Definition n_splits (c : BayesSearchCV) : Z :=
  match cv c with
  | None => 5
  | Some k => k
  end.

Class Skopt : Type := {
  search_result : Type;
  BayesSearchCV_fit : BayesSearchCV -> pyobj -> pyobj -> res search_result
}.

(** The controller object: [fit] stores its outcome in the controller and
    returns nothing of interest. *)
Record optimiser `{Skopt} : Type := {
  controller : BayesSearchCV;
  fitted : option search_result
}.

(** Modelled from the spec: the class [utils.estimator.ARIMAEstimator], whose
    source is not part of this unit.  Its constructor takes (series, order)
    and gives an estimator initialised with that order over that series. *)
Record ARIMAEstimator : Type := {
  est_train : loc;
  est_order : option order
}.

(** Modelled from the spec: the class [utils.estimator.GARCHEstimator], whose
    source is not part of this unit.  Its constructor takes (series, p, q). *)
Record GARCHEstimator : Type := {
  garch_train : loc;
  garch_p : option Z;
  garch_q : option Z
}.

(** ** Attribute lookup

    The four classes of the module, the names each class body binds, and the
    lookup of [self.name] along the method resolution order.  No method of
    the module assigns an attribute of [self], so an instance has no
    attribute of its own. *)

Inductive class : Type :=
| HyperparameterTuner_class
| XGBTuner_class
| ARIMATuner_class
| GARCHTuner_class.

(** The classes after [c] in its resolution order, [object] apart. *)
Definition bases (c : class) : list class :=
  match c with
  | HyperparameterTuner_class => []
  | XGBTuner_class | ARIMATuner_class | GARCHTuner_class => [HyperparameterTuner_class]
  end.

Definition class_dict (c : class) : list string :=
  match c with
  | HyperparameterTuner_class =>
      ["__init__"; "bayesian_optimisation"; "grid_search"; "random_forest"]
  | XGBTuner_class =>
      ["__init__"; "bayesian_optimisation"]
  | ARIMATuner_class =>
      ["__init__"; "_aic_arima_model"; "_bic_arima_model"; "_bse_arima_model";
       "_find_d_values"; "grid_search"]
  | GARCHTuner_class =>
      ["__init__"; "grid_search"]
  end.

(** The class whose body provides [name] for an instance of [c]. *)
Definition lookup_attr (c : class) (name : string) : option class :=
  List.find (fun k => bool_decide (name ∈ class_dict k)) (c :: bases c).

(** [self.name] on an instance of [c]. *)
Definition getattr (c : class) (name : string) : M class :=
  match lookup_attr c name with
  | Some k => mret k
  | None => raise AttributeError
  end.

(** ** class HyperparameterTuner *)

Module HyperparameterTuner.

(** [def __init__(self): pass] *)
Definition __init__ (args : list loc) : M unit :=
  call 0 (fun _ => mret tt) args.

(** The three abstract methods are [pass]: they return [None]. *)
Definition bayesian_optimisation : M unit := mret tt.
Definition grid_search : M unit := mret tt.
Definition random_forest : M unit := mret tt.

End HyperparameterTuner.

(** ** class XGBTuner *)

Module XGBTuner.
Section Defs.
Context `{Skopt}.

Definition __init__ : M unit := HyperparameterTuner.__init__ [].

(** [optimiser.fit(X, y)] *)
Definition fit (o : optimiser) (X y : loc) : M optimiser :=
  oX ← deref X;
  oy ← deref y;
  emit (EvSearch X y (n_iter (controller o)) (verbose (controller o)));;
  r ← lift (BayesSearchCV_fit (controller o) oX oy);
  mret {| controller := controller o; fitted := Some r |}.

Definition param_space : gmap string dimension :=
  <["n_estimators" := Integer 100 1000]>
  (<["max_depth" := Integer 3 13]>
  (<["learning_rate" := Real (1 # 100) 1]>
  (<["gamma" := Real 0 5]>
  (<["subsample" := Real (1 # 2) 1]> ∅)))).

Definition bayesian_optimisation (X y : loc) : M optimiser :=
  let optimiser :=
    {| controller := BayesSearchCV_new XGBRegressor param_space 50 10;
       fitted := None |} in
  optimiser ← fit optimiser X y;
  mret optimiser.

End Defs.
End XGBTuner.

(** ** class ARIMATuner *)

Module ARIMATuner.

(** The local variables of [grid_search] that the loops update. *)
Record locals : Type := Locals {
  best_score : PyFloat.float;
  score : option PyFloat.float;
  best_cfg : option order
}.

Section Defs.
Context `{Statsmodels}.

Definition __init__ : M unit := HyperparameterTuner.__init__ [].

(** [model = ARIMA(train, order=cfg)] *)
Definition new_ARIMA (train : loc) (cfg : order) : M arima_model :=
  o ← deref train;
  emit (EvARIMA train cfg);;
  lift (ARIMA o cfg).

(** [model_fit = model.fit()] *)
Definition fit (train : loc) (cfg : order) (model : arima_model) : M ARIMAResults :=
  emit (EvFit train cfg);;
  lift (ARIMA_fit model).

Definition _aic_arima_model (p q d : Z) (train : loc) : M PyFloat.float :=
  let cfg := (p, q, d) in
  model ← new_ARIMA train cfg;
  model_fit ← fit train cfg model;
  mret (aic model_fit).

Definition _bic_arima_model (p q d : Z) (train : loc) : M PyFloat.float :=
  let cfg := (p, q, d) in
  model ← new_ARIMA train cfg;
  model_fit ← fit train cfg model;
  mret (bic model_fit).

(** [model_fit.bse[1]]: an index past the end raises. *)
Definition _bse_arima_model (p q d : Z) (train : loc) : M PyFloat.float :=
  let cfg := (p, q, d) in
  model ← new_ARIMA train cfg;
  model_fit ← fit train cfg model;
  match bse model_fit !! 1%nat with
  | Some x => mret x
  | None => raise IndexError
  end.

(** The body of the innermost loop. *)
Definition visit (method : string) (train : loc) (p q d : Z) (st : locals) : M locals :=
  let cfg := (p, q, d) in
  score ←
    (if String.eqb method "aic" then
       s ← _aic_arima_model p q d train; mret (Some s)
     else if String.eqb method "bic" then
       s ← _bic_arima_model p q d train; mret (Some s)
     else if String.eqb method "bse" then
       s ← _bse_arima_model p q d train; mret (Some s)
     else mret (score st));
  emit (EvPrint method score cfg);;
  match score with
  | None => raise TypeError
  | Some s =>
      if PyFloat.lt s (best_score st)
      then mret (Locals s score (Some cfg))
      else mret (Locals (best_score st) score (best_cfg st))
  end.

(** [self] has no attribute and is only used to reach the three helpers. *)
Definition grid_search (param_space : loc) (method : string) (train : loc)
    : M (option order * ARIMAEstimator) :=
  let st := Locals PyFloat.inf None None in
  p_values ← getitem param_space "p";
  q_values ← getitem param_space "q";
  d_values ← getitem param_space "d";
  st ← for_each p_values (fun p =>
         for_each q_values (fun q =>
           for_each d_values (fun d =>
             visit method train p q d))) st;
  let model := {| est_train := train; est_order := best_cfg st |} in
  mret (best_cfg st, model).

End Defs.
(** What [_find_d_values] returns: the integer [0] or the list [d_values]. *)
Inductive d_values_result : Type :=
| DZero
| DList (d_values : list Z).

Section FindD.

(** What [is_stationary] would do on its argument, and what
    [self._y_train.shift(i)] would give, were they defined; the loop runs at
    most [fuel] times. *)
Variable is_stationary_body : loc -> M bool.
Variable y_train_shift : Z -> M loc.

(** [self.is_stationary(x)] *)
Definition is_stationary (x : loc) : M bool :=
  getattr ARIMATuner_class "is_stationary";;
  is_stationary_body x.

(** [while self.is_stationary(self._y_train.shift(i)) is False:
       d_values.append(i); i += 1] *)
Fixpoint differencing_loop (fuel : nat) (i : Z) (d_values : list Z) : M (list Z) :=
  match fuel with
  | O => raise (OtherError "out of fuel")
  | S fuel' =>
      getattr ARIMATuner_class "is_stationary";;
      getattr ARIMATuner_class "_y_train";;
      shifted ← y_train_shift i;
      stationary ← is_stationary_body shifted;
      if (stationary : bool) then mret d_values
      else differencing_loop fuel' (i + 1) (d_values ++ [i])
  end.

Definition _find_d_values (fuel : nat) (train : loc) : M d_values_result :=
  let d_values : list Z := [] in
  stationary ← is_stationary train;
  if (stationary : bool) then mret DZero
  else
    let i := 1 in
    d_values ← differencing_loop fuel i d_values;
    mret (DList d_values).

End FindD.

End ARIMATuner.

(** ** class GARCHTuner *)

Module GARCHTuner.

(** [def __init__(self, df, target): super().__init__(df, target)] *)
Definition __init__ (args : list loc) : M unit :=
  call 2 (fun args =>
    match args with
    | [df; target] => HyperparameterTuner.__init__ [df; target]
    | _ => raise TypeError
    end) args.

(** An instantiation [GARCHTuner(...)]: the instance exists once [__init__]
    returns. *)
Inductive instance : Type := Obj.

Definition new (args : list loc) : M instance :=
  __init__ args;;
  mret Obj.

(** [self.get_y_train()]: no class of the hierarchy defines it. *)
Definition get_y_train (self : instance) : M loc := raise AttributeError.

Definition grid_search (self : instance) (p_values q_values : list Z) : M GARCHEstimator :=
  (raise NotImplementedError : M unit);;
  let best_p : option Z := None in
  let best_q : option Z := None in
  y_train ← get_y_train self;
  let model := {| garch_train := y_train; garch_p := best_p; garch_q := best_q |} in
  mret model.

End GARCHTuner.

(** ** Reading a run

    [runs m σ evs r]: from the store [σ], whatever was already printed, [m]
    leaves the store as it is, appends the events [evs] and ends in [r]. *)

Definition runs {A} (m : M A) (σ : gmap loc pyobj) (evs : list event) (r : res A) : Prop :=
  forall t, m (World σ t) = (World σ (t ++ evs), r).

(** [framed m]: in every store [m] has such a run, so it never writes the
    store and its outcome does not depend on what was printed before. *)
Definition framed {A} (m : M A) : Prop :=
  forall σ, exists evs r, runs m σ evs r.

(** The grid in the order the three loops visit it: [p] outermost, [q] in the
    middle, [d] innermost. *)
Definition product (ps qs ds : list Z) : list order :=
  p ← ps; q ← qs; d ← ds; [(p, q, d)].

(** The methods [grid_search] knows. *)
Definition supported (method : string) : Prop :=
  method = "aic" \/ method = "bic" \/ method = "bse".

Section Scores.
Context `{Statsmodels}.

(** The diagnostic a method reads off a fit result. *)
Definition diagnostic (method : string) (r : ARIMAResults) : res PyFloat.float :=
  if String.eqb method "aic" then Ok (aic r)
  else if String.eqb method "bic" then Ok (bic r)
  else match bse r !! 1%nat with
       | Some x => Ok x
       | None => Raise IndexError
       end.

(** The score of a configuration on the data [o] under [method]: what the
    scoring helper of that method returns, or the exception it raises. *)
Definition fitted_score (method : string) (o : pyobj) (cfg : order) : res PyFloat.float :=
  match ARIMA o cfg with
  | Raise e => Raise e
  | Ok model =>
      match ARIMA_fit model with
      | Raise e => Raise e
      | Ok model_fit => diagnostic method model_fit
      end
  end.

(** The score as a total function: NaN where the helper raises. *)
Definition score_of (method : string) (o : pyobj) (cfg : order) : PyFloat.float :=
  match fitted_score method o cfg with
  | Ok s => s
  | Raise _ => PyFloat.nan
  end.

(** Every ARIMA fit of the grid succeeds. *)
Definition fits_succeed (o : pyobj) (grid : list order) : Prop :=
  forall cfg, cfg ∈ grid ->
    exists model model_fit, ARIMA o cfg = Ok model /\ ARIMA_fit model = Ok model_fit.

(** The events of one visit whose score is [s]. *)
Definition visit_events (method : string) (train : loc) (s : PyFloat.float) (cfg : order)
    : list event :=
  [EvARIMA train cfg; EvFit train cfg; EvPrint method (Some s) cfg].

End Scores.

(** The locals on entry to the loops. *)
Definition initial : ARIMATuner.locals :=
  ARIMATuner.Locals PyFloat.inf None None.

(** One pass of the loop body over the locals, for a score [s]. *)
Definition step (s : PyFloat.float) (cfg : order) (st : ARIMATuner.locals)
    : ARIMATuner.locals :=
  if PyFloat.lt s (ARIMATuner.best_score st)
  then ARIMATuner.Locals s (Some s) (Some cfg)
  else ARIMATuner.Locals (ARIMATuner.best_score st) (Some s) (ARIMATuner.best_cfg st).

(** The locals after the loops have visited [grid], when [sc] gives the
    score of each configuration. *)
Definition scan (sc : order -> PyFloat.float) (grid : list order) (st : ARIMATuner.locals)
    : ARIMATuner.locals :=
  fold_left (fun st cfg => step (sc cfg) cfg st) grid st.

(** What the loops maintain after visiting [seen]: no best configuration
    while no score was below [inf]; otherwise the best configuration is an
    entry of [seen] whose score is below [inf], every entry before it
    compares strictly worse or not at all, and no entry after it compares
    strictly better. *)
Definition first_best (sc : order -> PyFloat.float) (seen : list order)
    (st : ARIMATuner.locals) : Prop :=
  match ARIMATuner.best_cfg st with
  | None =>
      ARIMATuner.best_score st = PyFloat.inf /\
      forall x, x ∈ seen -> PyFloat.lt (sc x) PyFloat.inf = false
  | Some c =>
      exists l1 l2,
        seen = l1 ++ c :: l2 /\
        ARIMATuner.best_score st = sc c /\
        PyFloat.lt (sc c) PyFloat.inf = true /\
        (forall x, x ∈ l1 -> PyFloat.le (sc x) (sc c) = false) /\
        (forall x, x ∈ l2 -> PyFloat.lt (sc x) (sc c) = false)
  end.

(** [param_space] refers to a dict whose ['p'], ['q'] and ['d'] entries are
    the lists [ps], [qs] and [ds]. *)
Definition grid_at (σ : gmap loc pyobj) (param_space : loc) (ps qs ds : list Z) : Prop :=
  exists dict : gmap string (list Z),
    σ !! param_space = Some (PyDict dict) /\
    dict !! "p" = Some ps /\ dict !! "q" = Some qs /\ dict !! "d" = Some ds.

(** [grid_search] returns a configuration of [grid] whose score under
    [method] is at most the score of every configuration of [grid]. *)
Definition returns_minimum `{Statsmodels} (σ : gmap loc pyobj) (param_space : loc)
    (method : string) (train : loc) (o : pyobj) (grid : list order) : Prop :=
  exists c model evs,
    runs (ARIMATuner.grid_search param_space method train) σ evs (Ok (Some c, model)) /\
    c ∈ grid /\
    forall cfg', cfg' ∈ grid ->
      exists s s', fitted_score method o c = Ok s /\
                   fitted_score method o cfg' = Ok s' /\
                   PyFloat.le s s' = true.

(** [grid_search] fails with the exception [e]. *)
Definition fails_with `{Statsmodels} (σ : gmap loc pyobj) (param_space : loc)
    (method : string) (train : loc) (e : exn) : Prop :=
  exists evs, runs (ARIMATuner.grid_search param_space method train) σ evs (Raise e).

(** [grid_search] fails. *)
Definition fails `{Statsmodels} (σ : gmap loc pyobj) (param_space : loc)
    (method : string) (train : loc) : Prop :=
  exists evs e, runs (ARIMATuner.grid_search param_space method train) σ evs (Raise e).

(** [cfg] attains the minimum score of the grid. *)
Definition attains_min (sc : order -> PyFloat.float) (grid : list order) (cfg : order) : Prop :=
  forall cfg', cfg' ∈ grid -> PyFloat.le (sc cfg) (sc cfg') = true.

(** [cfg] attains the minimum of the scores of the grid that are numbers:
    its score is a number, at most every score that is a number.  Scores
    that are NaN do not count. *)
Definition attains_number_min (sc : order -> PyFloat.float) (grid : list order)
    (cfg : order) : Prop :=
  PyFloat.is_nan (sc cfg) = false /\
  forall cfg', cfg' ∈ grid -> PyFloat.is_nan (sc cfg') = false ->
    PyFloat.le (sc cfg) (sc cfg') = true.

(** [grid_search] returns the configuration [cfg]. *)
Definition returns_config `{Statsmodels} (σ : gmap loc pyobj) (param_space : loc)
    (method : string) (train : loc) (cfg : order) : Prop :=
  exists evs model,
    runs (ARIMATuner.grid_search param_space method train) σ evs (Ok (Some cfg, model)).

(** The events by kind. *)
Definition is_construction (e : event) : bool :=
  match e with EvARIMA _ _ => true | _ => false end.

Definition is_fitting (e : event) : bool :=
  match e with EvFit _ _ => true | _ => false end.

Definition is_print (e : event) : bool :=
  match e with EvPrint _ _ _ => true | _ => false end.

(** The events of a scoring call on [cfg]: the construction, and the fit
    when the construction succeeded. *)
Definition attempt_events `{Statsmodels} (o : pyobj) (train : loc) (cfg : order)
    : list event :=
  match ARIMA o cfg with
  | Ok _ => [EvARIMA train cfg; EvFit train cfg]
  | Raise _ => [EvARIMA train cfg]
  end.

(** The entries of [param_space] that [grid_search] reads. *)
Definition grid_keys : list string := ["p"; "q"; "d"].

(** ** Sample data *)

Module Sample.

(** 1.0, 2.0 and 3.0 as binary64 values. *)
Definition one : PyFloat.float := S754_finite false 4503599627370496 (-52).
Definition two : PyFloat.float := S754_finite false 4503599627370496 (-51).
Definition three : PyFloat.float := S754_finite false 6755399441055744 (-51).

(** A library whose fits always succeed and report [r cfg]. *)
Definition table (r : order -> ARIMAResults) : Statsmodels :=
  {| arima_model := order;
     ARIMA := fun _ cfg => Ok cfg;
     ARIMA_fit := fun cfg => Ok (r cfg) |}.

(** Every diagnostic of every fit equal to [x]. *)
Definition flat (x : PyFloat.float) : order -> ARIMAResults :=
  fun _ => {| aic := x; bic := x; bse := [x; x] |}.

(** The AIC grows with [p]; ARIMA(1,1,0) and ARIMA(1,1,1) tie. *)
Definition by_p : order -> ARIMAResults :=
  fun '(p, _, _) =>
    let x := if Z.eqb p 1 then one else if Z.eqb p 2 then two else three in
    {| aic := x; bic := x; bse := [x; x] |}.

(** A search controller whose fit always succeeds. *)
Definition skopt : Skopt :=
  {| search_result := unit;
     BayesSearchCV_fit := fun _ _ _ => Ok tt |}.

Definition series : pyobj := PyData [[one]; [two]; [three]; [two]].

Definition dict (ps qs ds : list Z) : gmap string (list Z) :=
  <["p" := ps]> (<["q" := qs]> (<["d" := ds]> ∅)).

Definition grid (ps qs ds : list Z) : pyobj := PyDict (dict ps qs ds).

(** A store holding a parameter grid at reference 1 and a series at 2. *)
Definition store (ps qs ds : list Z) : gmap loc pyobj :=
  <[1%positive := grid ps qs ds]> (<[2%positive := series]> ∅).

End Sample.

(** ** Further sample data *)

Module Cases.

(** A dict without the entry 'q', at reference 1. *)
Definition store_without_q : gmap loc pyobj :=
  <[1%positive := PyDict (<["p" := [1]]> (<["d" := [0]]> ∅))]>
  (<[2%positive := Sample.series]> ∅).

(** A library whose fit of the order [c] raises [e]; the other fits report
    [Sample.by_p]. *)
Definition fit_fails_at (c : order) (e : exn) : Statsmodels :=
  {| arima_model := order;
     ARIMA := fun _ cfg => Ok cfg;
     ARIMA_fit := fun cfg =>
       if bool_decide (cfg = c) then Raise e else Ok (Sample.by_p cfg) |}.

(** A library that refuses every order at construction. *)
Definition rejects (e : exn) : Statsmodels :=
  {| arima_model := order;
     ARIMA := fun _ _ => Raise e;
     ARIMA_fit := fun cfg => Ok (Sample.by_p cfg) |}.

(** A library whose fits have two coefficients when [q] is 0 and one
    otherwise. *)
Definition short_bse : Statsmodels :=
  Sample.table (fun '(_, q, _) =>
    {| aic := Sample.one; bic := Sample.one;
       bse := if Z.eqb q 0 then [Sample.two; Sample.one] else [Sample.two] |}).

(** A library whose diagnostics are NaN when [p] is 1. *)
Definition nan_at_p1 : Statsmodels :=
  Sample.table (fun '(p, q, d) =>
    if Z.eqb p 1 then Sample.flat PyFloat.nan (p, q, d) else Sample.by_p (p, q, d)).

(** Two parameter grids, at references 1 and 3, and a series at 2. *)
Definition store2 (ps qs ds ps' qs' ds' : list Z) : gmap loc pyobj :=
  <[1%positive := Sample.grid ps qs ds]>
  (<[2%positive := Sample.series]>
  (<[3%positive := Sample.grid ps' qs' ds']> ∅)).

(** A library whose diagnostics are NaN when [p] is 3. *)
Definition nan_at_p3 : Statsmodels :=
  Sample.table (fun '(p, q, d) =>
    if Z.eqb p 3 then Sample.flat PyFloat.nan (p, q, d) else Sample.by_p (p, q, d)).

End Cases.

(** * Properties *)

(** ** The order on floats *)

Module PyFloatFacts.
Import PyFloat.

Lemma pos_cont_spec (m1 m2 : positive) :
  CompareSpec (Z.pos m1 = Z.pos m2) (Z.pos m1 < Z.pos m2) (Z.pos m2 < Z.pos m1)
              (Pos.compare_cont Eq m1 m2).
Proof.
  change (Pos.compare_cont Eq m1 m2) with (Pos.compare m1 m2).
  destruct (Pos.compare_spec m1 m2); constructor; lia.
Qed.

(** [SFcompare] is the comparison of positions; it is undefined exactly
    when one side is NaN. *)
Lemma compare_key (x y : float) :
  match SFcompare x y with
  | None => key x = None \/ key y = None
  | Some c =>
      exists a b, key x = Some a /\ key y = Some b /\
        match c with
        | Lt => key_lt a b
        | Eq => a = b
        | Gt => key_lt b a
        end
  end.
Proof.
  destruct x as [s1| [|] | |[|] m1 e1], y as [s2| [|] | |[|] m2 e2]; simpl;
    try (left; reflexivity); try (right; reflexivity);
    try (eexists _, _; split; [reflexivity|split; [reflexivity|]]; simpl; try lia; auto).
  all: try (destruct s1; simpl; lia).
  all: try (destruct s2; simpl; lia).
  all: destruct (Z.compare_spec e1 e2); simpl; try lia;
       destruct (pos_cont_spec m1 m2); simpl; try lia.
  all: repeat f_equal; lia.
Qed.

Lemma key_lt_irrefl a : ~ key_lt a a.
Proof. destruct a as [[a1 a2] a3]. unfold key_lt. lia. Qed.

Lemma key_lt_asym a b : key_lt a b -> ~ key_lt b a.
Proof. destruct a as [[a1 a2] a3], b as [[b1 b2] b3]. unfold key_lt. lia. Qed.

Lemma key_lt_trans a b c : key_lt a b -> key_lt b c -> key_lt a c.
Proof.
  destruct a as [[a1 a2] a3], b as [[b1 b2] b3], c as [[c1 c2] c3].
  unfold key_lt. lia.
Qed.

Lemma key_total a b : key_lt a b \/ a = b \/ key_lt b a.
Proof.
  destruct a as [[a1 a2] a3], b as [[b1 b2] b3]. unfold key_lt.
  destruct (Z.lt_trichotomy a1 b1) as [?|[?|?]];
    destruct (Z.lt_trichotomy a2 b2) as [?|[?|?]];
    destruct (Z.lt_trichotomy a3 b3) as [?|[?|?]]; subst; auto; lia.
Qed.

Lemma lt_key x y :
  lt x y = true <->
  exists a b, key x = Some a /\ key y = Some b /\ key_lt a b.
Proof.
  unfold lt, SFltb. pose proof (compare_key x y) as Hc.
  destruct (SFcompare x y) as [[| |]|].
  - destruct Hc as (a & b & Ha & Hb & ->). split; [discriminate|].
    intros (a' & b' & Ha' & Hb' & Hlt). rewrite Ha in Ha'. rewrite Hb in Hb'.
    simplify_eq. by apply key_lt_irrefl in Hlt.
  - destruct Hc as (a & b & Ha & Hb & Hlt). split; eauto.
  - destruct Hc as (a & b & Ha & Hb & Hgt). split; [discriminate|].
    intros (a' & b' & Ha' & Hb' & Hlt). rewrite Ha in Ha'. rewrite Hb in Hb'.
    simplify_eq. by apply key_lt_asym in Hlt.
  - split; [discriminate|].
    intros (a' & b' & Ha' & Hb' & Hlt). destruct Hc; congruence.
Qed.

Lemma le_key x y :
  le x y = true <->
  exists a b, key x = Some a /\ key y = Some b /\ key_le a b.
Proof.
  unfold le, SFleb, key_le. pose proof (compare_key x y) as Hc.
  destruct (SFcompare x y) as [[| |]|].
  - destruct Hc as (a & b & Ha & Hb & ->). split; eauto 10.
  - destruct Hc as (a & b & Ha & Hb & Hlt). split; eauto 10.
  - destruct Hc as (a & b & Ha & Hb & Hgt). split; [discriminate|].
    intros (a' & b' & Ha' & Hb' & [Hlt| ->]); rewrite Ha in Ha'; rewrite Hb in Hb';
      simplify_eq.
    + by apply key_lt_asym in Hlt.
    + by apply key_lt_irrefl in Hgt.
  - split; [discriminate|].
    intros (a' & b' & Ha' & Hb' & Hlt). destruct Hc; congruence.
Qed.

Lemma key_nan x : key x = None <-> is_nan x = true.
Proof. destruct x as [|[|]| |[|]]; simpl; split; congruence. Qed.

Lemma lt_trans x y z : lt x y = true -> lt y z = true -> lt x z = true.
Proof.
  rewrite !lt_key. intros (a & b & Ha & Hb & Hab) (b' & c & Hb' & Hc & Hbc).
  rewrite Hb in Hb'. simplify_eq. exists a, c. repeat split; auto.
  eapply key_lt_trans; eauto.
Qed.

Lemma le_lt_trans x y z : le x y = true -> lt y z = true -> lt x z = true.
Proof.
  rewrite le_key, !lt_key.
  intros (a & b & Ha & Hb & Hab) (b' & c & Hb' & Hc & Hbc).
  rewrite Hb in Hb'. simplify_eq. exists a, c. repeat split; auto.
  destruct Hab as [Hab| ->]; [eapply key_lt_trans; eauto|done].
Qed.

Lemma lt_le x y : lt x y = true -> le x y = true.
Proof.
  rewrite le_key, lt_key. intros (a & b & Ha & Hb & Hab).
  exists a, b. unfold key_le. auto.
Qed.

Lemma lt_not_le x y : lt x y = true -> le y x = false.
Proof.
  intros Hlt. destruct (le y x) eqn:Hle; [|done].
  pose proof (le_lt_trans _ _ _ Hle Hlt) as Hyy.
  apply lt_key in Hyy as (a & b & Ha & Hb & Hab).
  rewrite Ha in Hb. simplify_eq. by apply key_lt_irrefl in Hab.
Qed.

(** Two numbers are comparable: NaN is the only value that is not. *)
Lemma not_lt_le x y :
  is_nan x = false -> is_nan y = false -> lt x y = false -> le y x = true.
Proof.
  intros Hx Hy Hlt.
  destruct (key x) as [a|] eqn:Ha; [|apply key_nan in Ha; congruence].
  destruct (key y) as [b|] eqn:Hb; [|apply key_nan in Hb; congruence].
  apply le_key. exists b, a. repeat split; auto. unfold key_le.
  destruct (key_total a b) as [Hab|[->|Hba]]; auto.
  assert (lt x y = true) by (apply lt_key; eauto). congruence.
Qed.

Lemma not_le_le x y :
  is_nan x = false -> is_nan y = false -> le x y = false -> le y x = true.
Proof.
  intros Hx Hy Hle. apply not_lt_le; auto.
  destruct (lt x y) eqn:Hlt; [|done]. apply lt_le in Hlt. congruence.
Qed.

Lemma le_refl x : is_nan x = false -> le x x = true.
Proof.
  intros Hx. destruct (key x) as [a|] eqn:Ha; [|apply key_nan in Ha; congruence].
  apply le_key. exists a, a. unfold key_le. auto.
Qed.

Lemma le_trans x y z : le x y = true -> le y z = true -> le x z = true.
Proof.
  rewrite !le_key. intros (a & b & Ha & Hb & Hab) (b' & c & Hb' & Hc & Hbc).
  rewrite Hb in Hb'. simplify_eq. exists a, c. repeat split; auto.
  destruct Hab as [Hab| ->]; [|done]. destruct Hbc as [Hbc| ->]; [|by left].
  left. eapply key_lt_trans; eauto.
Qed.

Lemma le_not_le_lt x y : le x y = true -> le y x = false -> lt x y = true.
Proof.
  intros Hxy Hyx. pose proof Hxy as (a & b & Ha & Hb & [Hab| ->])%le_key.
  - apply lt_key. eauto.
  - assert (le y x = true) by (apply le_key; exists b, b; unfold key_le; auto).
    congruence.
Qed.

Lemma lt_inf_nan x : lt x inf = true -> is_nan x = false.
Proof. by destruct x. Qed.

Lemma le_nan_l x y : le x y = true -> is_nan x = false.
Proof. by destruct x as [|[|]| |[|]]. Qed.

Lemma le_nan_r x y : le x y = true -> is_nan y = false.
Proof. destruct x as [|[|]| |[|]], y as [|[|]| |[|]]; done. Qed.

End PyFloatFacts.

(** ** Runs of the monad *)

Section Runs.
Context {A B : Type}.
Implicit Types (σ : gmap loc pyobj) (evs : list event).

Lemma runs_ret (a : A) σ : runs (mret a) σ [] (Ok a).
Proof. intros t. by rewrite app_nil_r. Qed.

Lemma runs_raise (e : exn) σ : runs (raise e : M A) σ [] (Raise e).
Proof. intros t. by rewrite app_nil_r. Qed.

Lemma runs_lift (r : res A) σ : runs (lift r) σ [] r.
Proof. intros t. by rewrite app_nil_r. Qed.

Lemma runs_bind_ok (m : M A) (f : A -> M B) σ evs1 evs2 a r :
  runs m σ evs1 (Ok a) -> runs (f a) σ evs2 r -> runs (m ≫= f) σ (evs1 ++ evs2) r.
Proof.
  intros Hm Hf t. unfold mbind, M_bind. rewrite Hm, Hf. by rewrite app_assoc.
Qed.

Lemma runs_bind_raise (m : M A) (f : A -> M B) σ evs e :
  runs m σ evs (Raise e) -> runs (m ≫= f) σ evs (Raise e).
Proof. intros Hm t. unfold mbind, M_bind. by rewrite Hm. Qed.

Lemma bind_Ok_inv (m : M A) (f : A -> M B) (w w' : world) (b : B) :
  (m ≫= f) w = (w', Ok b) ->
  exists w1 a, m w = (w1, Ok a) /\ f a w1 = (w', Ok b).
Proof.
  unfold mbind, M_bind. destruct (m w) as [w1 [a|e]]; [|discriminate]. eauto.
Qed.

(** A run is determined by the store. *)
Lemma runs_inj (m : M A) σ evs1 evs2 r1 r2 :
  runs m σ evs1 r1 -> runs m σ evs2 r2 -> evs1 = evs2 /\ r1 = r2.
Proof.
  intros H1 H2. specialize (H1 []). specialize (H2 []).
  rewrite H1 in H2. by simplify_eq.
Qed.

End Runs.

Lemma runs_emit (e : event) σ : runs (emit e) σ [e] (Ok tt).
Proof. by intros t. Qed.

Lemma runs_deref (l : loc) (o : pyobj) σ :
  σ !! l = Some o -> runs (deref l) σ [] (Ok o).
Proof. intros Hl t. unfold deref. simpl. rewrite Hl. by rewrite app_nil_r. Qed.

Lemma runs_getitem (l : loc) (key : string) (d : gmap string (list Z)) (v : list Z) σ :
  σ !! l = Some (PyDict d) -> d !! key = Some v -> runs (getitem l key) σ [] (Ok v).
Proof.
  intros Hl Hk. unfold getitem.
  change [] with (@nil event ++ []).
  eapply runs_bind_ok; [by apply runs_deref|]. simpl. rewrite Hk. apply runs_ret.
Qed.

(** A loop whose every pass succeeds is the fold of its passes. *)
Lemma runs_for_each {A S} (xs : list A) (body : A -> S -> M S)
    (ev : A -> list event) (f : A -> S -> S) σ :
  (forall x s, x ∈ xs -> runs (body x s) σ (ev x) (Ok (f x s))) ->
  forall s, runs (for_each xs body s) σ (concat (map ev xs))
                 (Ok (fold_left (fun s x => f x s) xs s)).
Proof.
  induction xs as [|x xs IH]; intros Hbody s; simpl.
  - apply runs_ret.
  - eapply runs_bind_ok.
    + apply Hbody. by left.
    + apply IH. intros y s' Hy. apply Hbody. by right.
Qed.

(** A loop over nothing, or whose passes do nothing, does nothing. *)
Lemma runs_for_each_skip {A S} (xs : list A) (body : A -> S -> M S) σ :
  (forall x s, x ∈ xs -> runs (body x s) σ [] (Ok s)) ->
  forall s, runs (for_each xs body s) σ [] (Ok s).
Proof.
  induction xs as [|x xs IH]; intros Hbody s; simpl.
  - apply runs_ret.
  - change [] with (@nil event ++ []). eapply runs_bind_ok.
    + apply Hbody. by left.
    + apply IH. intros y s' Hy. apply Hbody. by right.
Qed.

(** *** Frames *)

Lemma framed_ret {A} (a : A) : framed (mret a).
Proof. intros σ. eexists _, _. apply runs_ret. Qed.

Lemma framed_raise {A} (e : exn) : framed (raise e : M A).
Proof. intros σ. eexists _, _. apply runs_raise. Qed.

Lemma framed_lift {A} (r : res A) : framed (lift r).
Proof. intros σ. eexists _, _. apply runs_lift. Qed.

Lemma framed_emit (e : event) : framed (emit e).
Proof. intros σ. eexists _, _. apply runs_emit. Qed.

Lemma framed_deref (l : loc) : framed (deref l).
Proof.
  intros σ. destruct (σ !! l) as [o|] eqn:Hl.
  - eexists _, _. by apply runs_deref.
  - exists [], (Raise SystemError). intros t. unfold deref. simpl.
    rewrite Hl. by rewrite app_nil_r.
Qed.

Lemma framed_bind {A B} (m : M A) (f : A -> M B) :
  framed m -> (forall a, framed (f a)) -> framed (m ≫= f).
Proof.
  intros Hm Hf σ. destruct (Hm σ) as (evs & [a|e] & Hrun).
  - destruct (Hf a σ) as (evs' & r & Hrun').
    eexists _, _. eapply runs_bind_ok; eauto.
  - eexists _, _. eapply runs_bind_raise; eauto.
Qed.

Lemma framed_getitem (l : loc) (key : string) : framed (getitem l key).
Proof.
  apply framed_bind; [apply framed_deref|].
  intros [d|rows]; [|apply framed_raise].
  destruct (d !! key); [apply framed_ret|apply framed_raise].
Qed.

Lemma framed_for_each {A S} (xs : list A) (body : A -> S -> M S) :
  (forall x s, framed (body x s)) -> forall s, framed (for_each xs body s).
Proof.
  intros Hbody. induction xs as [|x xs IH]; intros s; simpl.
  - apply framed_ret.
  - apply framed_bind; auto.
Qed.

Create HintDb framed.
#[export] Hint Resolve framed_ret framed_raise framed_lift framed_emit framed_deref
  framed_getitem : framed.

(** What a frame says of a single run. *)
Lemma framed_run {A} (m : M A) (w : world) :
  framed m ->
  objs (m w).1 = objs w /\
  (exists out, trace (m w).1 = trace w ++ out) /\
  (forall w', objs w' = objs w -> (m w').2 = (m w).2).
Proof.
  intros Hm. destruct (Hm (objs w)) as (evs & r & Hrun).
  destruct w as [σ t]. simpl in *. rewrite (Hrun t). simpl.
  split; [reflexivity|]. split; [by exists evs|].
  intros [σ' t'] Heq. simpl in Heq. subst σ'. by rewrite (Hrun t').
Qed.

(** ** ARIMATuner: the scoring helpers and the loop body *)

Section ARIMAFacts.
Context `{Statsmodels}.
Import ARIMATuner.
Implicit Types (σ : gmap loc pyobj) (train : loc) (cfg : order) (st : locals).

Lemma runs_new_ARIMA train cfg o σ :
  σ !! train = Some o ->
  runs (new_ARIMA train cfg) σ [EvARIMA train cfg] (ARIMA o cfg).
Proof.
  intros Ho. unfold new_ARIMA.
  change [EvARIMA train cfg] with ([] ++ ([EvARIMA train cfg] ++ [])).
  eapply runs_bind_ok; [by apply runs_deref|].
  eapply runs_bind_ok; [apply runs_emit|apply runs_lift].
Qed.

Lemma runs_fit train cfg (model : arima_model) σ :
  runs (fit train cfg model) σ [EvFit train cfg] (ARIMA_fit model).
Proof.
  unfold fit. change [EvFit train cfg] with ([EvFit train cfg] ++ []).
  eapply runs_bind_ok; [apply runs_emit|apply runs_lift].
Qed.

(** Constructing and fitting, the common prefix of the three helpers. *)
Lemma runs_fitted {B} train cfg o model model_fit (k : ARIMAResults -> M B) σ r :
  σ !! train = Some o ->
  ARIMA o cfg = Ok model ->
  ARIMA_fit model = Ok model_fit ->
  runs (k model_fit) σ [] r ->
  runs (model ← new_ARIMA train cfg; model_fit ← fit train cfg model; k model_fit)
       σ [EvARIMA train cfg; EvFit train cfg] r.
Proof.
  intros Ho Hm Hf Hk.
  change [EvARIMA train cfg; EvFit train cfg]
    with ([EvARIMA train cfg] ++ ([EvFit train cfg] ++ [])).
  eapply runs_bind_ok; [rewrite <- Hm; by apply runs_new_ARIMA|].
  eapply runs_bind_ok; [rewrite <- Hf; by apply runs_fit|done].
Qed.

Lemma diagnostic_aic r : diagnostic "aic" r = Ok (aic r).
Proof. reflexivity. Qed.

Lemma diagnostic_bic r : diagnostic "bic" r = Ok (bic r).
Proof. reflexivity. Qed.

Lemma diagnostic_bse r :
  diagnostic "bse" r =
  match bse r !! 1%nat with Some x => Ok x | None => Raise IndexError end.
Proof. reflexivity. Qed.

(** When a score exists, both library calls succeeded. *)
Lemma fitted_score_Ok method o cfg s :
  fitted_score method o cfg = Ok s ->
  exists model model_fit,
    ARIMA o cfg = Ok model /\ ARIMA_fit model = Ok model_fit /\
    diagnostic method model_fit = Ok s.
Proof.
  unfold fitted_score. destruct (ARIMA o cfg) as [model|]; [|done].
  destruct (ARIMA_fit model) as [model_fit|] eqn:Hf; [|done].
  intros Hd. by exists model, model_fit.
Qed.

Lemma runs_aic p q d train o s σ :
  σ !! train = Some o ->
  fitted_score "aic" o (p, q, d) = Ok s ->
  runs (_aic_arima_model p q d train) σ [EvARIMA train (p, q, d); EvFit train (p, q, d)] (Ok s).
Proof.
  intros Ho (model & model_fit & Hm & Hf & Hd)%fitted_score_Ok.
  rewrite diagnostic_aic in Hd. simplify_eq.
  eapply runs_fitted; eauto. apply runs_ret.
Qed.

Lemma runs_bic p q d train o s σ :
  σ !! train = Some o ->
  fitted_score "bic" o (p, q, d) = Ok s ->
  runs (_bic_arima_model p q d train) σ [EvARIMA train (p, q, d); EvFit train (p, q, d)] (Ok s).
Proof.
  intros Ho (model & model_fit & Hm & Hf & Hd)%fitted_score_Ok.
  rewrite diagnostic_bic in Hd. simplify_eq.
  eapply runs_fitted; eauto. apply runs_ret.
Qed.

Lemma runs_bse p q d train o s σ :
  σ !! train = Some o ->
  fitted_score "bse" o (p, q, d) = Ok s ->
  runs (_bse_arima_model p q d train) σ [EvARIMA train (p, q, d); EvFit train (p, q, d)] (Ok s).
Proof.
  intros Ho (model & model_fit & Hm & Hf & Hd)%fitted_score_Ok.
  rewrite diagnostic_bse in Hd.
  eapply runs_fitted; eauto.
  destruct (bse model_fit !! 1%nat) as [x|]; [|done]. simplify_eq. apply runs_ret.
Qed.

(** A pass of the loop body under a supported method. *)
Lemma runs_visit method train p q d o s st σ :
  supported method ->
  σ !! train = Some o ->
  fitted_score method o (p, q, d) = Ok s ->
  runs (visit method train p q d st) σ
       (visit_events method train s (p, q, d)) (Ok (step s (p, q, d) st)).
Proof.
  intros Hm Ho Hs. unfold visit, visit_events.
  change [EvARIMA train (p, q, d); EvFit train (p, q, d); EvPrint method (Some s) (p, q, d)]
    with ([EvARIMA train (p, q, d); EvFit train (p, q, d)] ++
          ([EvPrint method (Some s) (p, q, d)] ++ [])).
  eapply runs_bind_ok with (a := Some s).
  - destruct Hm as [-> | [-> | ->]]; simpl.
    + rewrite <- (app_nil_r [_; _]). eapply runs_bind_ok; [by eapply runs_aic|apply runs_ret].
    + rewrite <- (app_nil_r [_; _]). eapply runs_bind_ok; [by eapply runs_bic|apply runs_ret].
    + rewrite <- (app_nil_r [_; _]). eapply runs_bind_ok; [by eapply runs_bse|apply runs_ret].
  - eapply runs_bind_ok; [apply runs_emit|]. unfold step.
    destruct (PyFloat.lt s (best_score st)); apply runs_ret.
Qed.

(** A pass of the loop body under any other method: no scorer is called,
    the score is still [None], the line is printed and the comparison
    [None < best_score] raises. *)
Lemma runs_visit_unsupported method train p q d st σ :
  ~ supported method ->
  score st = None ->
  runs (visit method train p q d st) σ [EvPrint method None (p, q, d)] (Raise TypeError).
Proof.
  intros Hm Hst. unfold visit.
  assert (String.eqb method "aic" = false) as ->
    by (apply String.eqb_neq; intros ->; apply Hm; left; done).
  assert (String.eqb method "bic" = false) as ->
    by (apply String.eqb_neq; intros ->; apply Hm; right; left; done).
  assert (String.eqb method "bse" = false) as ->
    by (apply String.eqb_neq; intros ->; apply Hm; right; right; done).
  rewrite Hst.
  change [EvPrint method None (p, q, d)] with ([] ++ ([EvPrint method None (p, q, d)] ++ [])).
  eapply runs_bind_ok; [apply runs_ret|].
  eapply runs_bind_ok; [apply runs_emit|apply runs_raise].
Qed.

End ARIMAFacts.

(** ** ARIMATuner: the three loops *)

Lemma fold_left_bind {A B S} (g : S -> B -> S) (f : A -> list B) (l : list A) (s : S) :
  fold_left g (l ≫= f) s = fold_left (fun s x => fold_left g (f x) s) l s.
Proof.
  revert s. induction l as [|x l IH]; intros s; [done|].
  rewrite bind_cons, fold_left_app. simpl. apply IH.
Qed.

Lemma concat_map_bind {A B C} (ev : B -> list C) (f : A -> list B) (l : list A) :
  concat (map ev (l ≫= f)) = concat (map (fun x => concat (map ev (f x))) l).
Proof.
  induction l as [|x l IH]; [done|].
  rewrite bind_cons, map_app, concat_app. simpl. by rewrite IH.
Qed.

Lemma elem_of_product (ps qs ds : list Z) (p q d : Z) :
  (p, q, d) ∈ product ps qs ds <-> p ∈ ps /\ q ∈ qs /\ d ∈ ds.
Proof.
  unfold product. rewrite list_elem_of_bind. split.
  - intros (p' & (q' & (d' & Hd%list_elem_of_singleton & Hds)%list_elem_of_bind
                      & Hqs)%list_elem_of_bind & Hps).
    by simplify_eq.
  - intros (Hp & Hq & Hd). exists p. split; [|done].
    apply list_elem_of_bind. exists q. split; [|done].
    apply list_elem_of_bind. exists d. split; [|done]. by apply list_elem_of_singleton.
Qed.

Section Loops.
Context `{Statsmodels}.
Import ARIMATuner.

(** Under a supported method whose every score exists, the loops visit the
    grid in order and leave the locals [scan] computes. *)
Lemma runs_loops method train (ps qs ds : list Z) o (sc : order -> PyFloat.float) st σ :
  supported method ->
  σ !! train = Some o ->
  (forall cfg, cfg ∈ product ps qs ds -> fitted_score method o cfg = Ok (sc cfg)) ->
  runs (for_each ps (fun p =>
          for_each qs (fun q =>
            for_each ds (fun d => visit method train p q d))) st) σ
       (concat (map (fun cfg => visit_events method train (sc cfg) cfg) (product ps qs ds)))
       (Ok (scan sc (product ps qs ds) st)).
Proof.
  intros Hm Ho Hsc. unfold scan, product.
  rewrite concat_map_bind, fold_left_bind.
  apply (runs_for_each ps _
    (fun p => concat (map (fun cfg => visit_events method train (sc cfg) cfg)
                          (q ← qs; d ← ds; [(p, q, d)])))
    (fun p st => fold_left (fun st cfg => step (sc cfg) cfg st)
                           (q ← qs; d ← ds; [(p, q, d)]) st)).
  intros p st' Hp.
  rewrite concat_map_bind, fold_left_bind.
  apply (runs_for_each qs _
    (fun q => concat (map (fun cfg => visit_events method train (sc cfg) cfg)
                          (d ← ds; [(p, q, d)])))
    (fun q st => fold_left (fun st cfg => step (sc cfg) cfg st)
                           (d ← ds; [(p, q, d)]) st)).
  intros q st'' Hq.
  rewrite concat_map_bind, fold_left_bind.
  apply (runs_for_each ds _
    (fun d => concat (map (fun cfg => visit_events method train (sc cfg) cfg) [(p, q, d)]))
    (fun d st => fold_left (fun st cfg => step (sc cfg) cfg st) [(p, q, d)] st)).
  intros d st''' Hd. simpl.
  eapply runs_visit; eauto. apply Hsc. by apply elem_of_product.
Qed.

(** The loops over a grid with no configuration do nothing, whatever the
    method. *)
Lemma runs_loops_empty method train (ps qs ds : list Z) st σ :
  product ps qs ds = [] ->
  runs (for_each ps (fun p =>
          for_each qs (fun q =>
            for_each ds (fun d => visit method train p q d))) st) σ [] (Ok st).
Proof.
  intros Hempty. apply runs_for_each_skip. intros p st' Hp.
  apply runs_for_each_skip. intros q st'' Hq.
  apply runs_for_each_skip. intros d st''' Hd.
  assert ((p, q, d) ∈ product ps qs ds) as Hin by by apply elem_of_product.
  rewrite Hempty in Hin. by apply elem_of_nil in Hin.
Qed.

End Loops.

(** ** ARIMATuner: what the loops compute *)

Section Scan.
Import ARIMATuner PyFloat PyFloatFacts.
Variable sc : order -> float.

Lemma scan_app l1 l2 st : scan sc (l1 ++ l2) st = scan sc l2 (scan sc l1 st).
Proof. apply fold_left_app. Qed.

Lemma first_best_initial : first_best sc [] initial.
Proof. split; [done|]. by intros x ?%elem_of_nil. Qed.

Lemma first_best_step seen st x :
  first_best sc seen st -> first_best sc (seen ++ [x]) (step (sc x) x st).
Proof.
  unfold first_best, step. intros Hinv.
  destruct (lt (sc x) (best_score st)) eqn:Hlt; simpl.
  - (* a strict improvement: [x] becomes the best *)
    exists seen, []. destruct (best_cfg st) as [c|].
    + destruct Hinv as (l1 & l2 & -> & Hbest & Hinf & Hl1 & Hl2).
      rewrite Hbest in Hlt. repeat split; auto.
      * by apply lt_trans with (sc c).
      * intros y Hy. destruct (le (sc y) (sc x)) eqn:Hle; [|done].
        pose proof (le_lt_trans _ _ _ Hle Hlt) as Hyc.
        apply elem_of_app in Hy as [Hy|Hy].
        -- apply lt_le in Hyc. rewrite Hl1 in Hyc; done.
        -- apply elem_of_cons in Hy as [->|Hy].
           ++ apply lt_not_le in Hlt. congruence.
           ++ rewrite Hl2 in Hyc; done.
      * by intros y ?%elem_of_nil.
    + destruct Hinv as [Hbest Hseen]. rewrite Hbest in Hlt. repeat split; auto.
      * intros y Hy. destruct (le (sc y) (sc x)) eqn:Hle; [|done].
        pose proof (le_lt_trans _ _ _ Hle Hlt) as Hyc.
        rewrite Hseen in Hyc; done.
      * by intros y ?%elem_of_nil.
  - (* no improvement: the best is kept *)
    destruct (best_cfg st) as [c|].
    + destruct Hinv as (l1 & l2 & -> & Hbest & Hinf & Hl1 & Hl2).
      exists l1, (l2 ++ [x]). rewrite Hbest in Hlt.
      repeat split; auto.
      * by rewrite <- app_assoc.
      * intros y [Hy| ->%list_elem_of_singleton]%elem_of_app; auto.
    + destruct Hinv as [Hbest Hseen]. rewrite Hbest in Hlt. split; [done|].
      intros y [Hy| ->%list_elem_of_singleton]%elem_of_app; auto.
Qed.

Lemma first_best_scan l seen st :
  first_best sc seen st -> first_best sc (seen ++ l) (scan sc l st).
Proof.
  revert seen st. induction l as [|x l IH]; intros seen st Hinv; simpl.
  - by rewrite app_nil_r.
  - replace (seen ++ x :: l) with ((seen ++ [x]) ++ l) by by rewrite <- app_assoc.
    apply IH. by apply first_best_step.
Qed.

Lemma scan_first_best grid : first_best sc grid (scan sc grid initial).
Proof. apply (first_best_scan grid [] initial), first_best_initial. Qed.

(** While no score is strictly below the best score, the best is kept. *)
Lemma scan_stable l st :
  (forall x, x ∈ l -> lt (sc x) (best_score st) = false) ->
  best_score (scan sc l st) = best_score st /\ best_cfg (scan sc l st) = best_cfg st.
Proof.
  revert st. induction l as [|x l IH]; intros st Hl; simpl; [done|].
  assert (step (sc x) x st = Locals (best_score st) (Some (sc x)) (best_cfg st)) as Hstep.
  { unfold step. rewrite Hl; [done|by left]. }
  unfold scan in IH. rewrite Hstep.
  destruct (IH (Locals (best_score st) (Some (sc x)) (best_cfg st))) as [? ?]; [|done].
  intros y Hy. apply Hl. by right.
Qed.

(** What is strictly below something is a number. *)
Lemma lt_number x y : lt x y = true -> is_nan x = false.
Proof. intros Hlt%lt_le. by eapply le_nan_l. Qed.

(** The first configuration that attains the minimum of the numbers is the
    one kept, when that minimum is below [inf]. *)
Lemma scan_first_number_min pre c post :
  attains_number_min sc (pre ++ c :: post) c ->
  (forall x, x ∈ pre -> ~ attains_number_min sc (pre ++ c :: post) x) ->
  lt (sc c) inf = true ->
  best_cfg (scan sc (pre ++ c :: post) initial) = Some c.
Proof.
  intros [Hc Hmin] Hpre Hinf.
  assert (forall x, x ∈ pre -> le (sc x) (sc c) = false) as Hworse.
  { intros x Hx. destruct (le (sc x) (sc c)) eqn:Hle; [|done].
    destruct (Hpre x Hx). split; [by eapply le_nan_l|].
    intros y Hy Hnum. apply le_trans with (sc c); auto. }
  rewrite scan_app. simpl.
  pose proof (scan_first_best pre) as Hinv. unfold first_best in Hinv.
  assert (step (sc c) c (scan sc pre initial)
          = Locals (sc c) (Some (sc c)) (Some c)) as Hstep.
  { unfold step. destruct (best_cfg (scan sc pre initial)) as [b|].
    - destruct Hinv as (l1 & l2 & Heq & Hbest & Hb & _). rewrite Hbest.
      assert (b ∈ pre) as Hin by (rewrite Heq; apply elem_of_app; right; by left).
      rewrite (le_not_le_lt (sc c) (sc b)); [done| |by apply Hworse].
      apply Hmin; [apply elem_of_app; by left|by eapply lt_number].
    - destruct Hinv as [-> _]. by rewrite Hinf. }
  rewrite Hstep.
  destruct (scan_stable post (Locals (sc c) (Some (sc c)) (Some c))) as [_ Hcfg]; [|done].
  simpl. intros x Hx. destruct (lt (sc x) (sc c)) eqn:Hlt; [|done].
  pose proof (lt_number _ _ Hlt) as Hnum.
  apply lt_not_le in Hlt. rewrite Hmin in Hlt; [done| |done].
  apply elem_of_app. right. by right.
Qed.

(** When every score is a number and one of them is below [inf], the
    configuration kept is an entry of the grid with the least score. *)
Lemma scan_minimum grid :
  (forall x, x ∈ grid -> is_nan (sc x) = false) ->
  (exists x, x ∈ grid /\ lt (sc x) inf = true) ->
  exists c, best_cfg (scan sc grid initial) = Some c /\ c ∈ grid /\ attains_min sc grid c.
Proof.
  intros Hnum (x0 & Hx0 & Hlt0).
  pose proof (scan_first_best grid) as Hinv. unfold first_best in Hinv.
  destruct (best_cfg (scan sc grid initial)) as [c|].
  - destruct Hinv as (l1 & l2 & Heq & Hbest & Hinf & Hl1 & Hl2).
    assert (c ∈ grid) as Hc by (rewrite Heq; apply elem_of_app; right; by left).
    exists c. repeat split; auto.
    intros y Hy. pose proof Hy as Hy'. rewrite Heq in Hy'.
    apply elem_of_app in Hy' as [Hy'|Hy'].
    + apply not_le_le; auto.
    + apply elem_of_cons in Hy' as [->|Hy'].
      * apply le_refl; auto.
      * apply not_lt_le; auto.
  - destruct Hinv as [_ Hall]. rewrite Hall in Hlt0; done.
Qed.

End Scan.

(** ** ARIMATuner.grid_search *)

Lemma product_nil (ps qs ds : list Z) :
  ps = [] \/ qs = [] \/ ds = [] -> product ps qs ds = [].
Proof.
  intros Hempty.
  destruct (product ps qs ds) as [|[[p q] d] grid] eqn:Hgrid; [done|].
  assert ((p, q, d) ∈ product ps qs ds) as (Hp & Hq & Hd)%elem_of_product
    by (rewrite Hgrid; by left).
  destruct Hempty as [-> | [-> | ->]];
    [by apply elem_of_nil in Hp|by apply elem_of_nil in Hq|by apply elem_of_nil in Hd].
Qed.

Section GridSearch.
Context `{Statsmodels}.
Import ARIMATuner PyFloat PyFloatFacts.

(** The three subscripts, then the loops, then the estimator. *)
Lemma runs_grid_search_with σ param_space ps qs ds method train evs (r : res locals) :
  grid_at σ param_space ps qs ds ->
  runs (for_each ps (fun p =>
          for_each qs (fun q =>
            for_each ds (fun d => visit method train p q d))) initial) σ evs r ->
  runs (grid_search param_space method train) σ evs
       match r with
       | Ok st => Ok (best_cfg st, {| est_train := train; est_order := best_cfg st |})
       | Raise e => Raise e
       end.
Proof.
  intros (dict & Hdict & Hp & Hq & Hd) Hloops. unfold grid_search.
  change evs with ([] ++ ([] ++ ([] ++ evs))).
  eapply runs_bind_ok; [by eapply runs_getitem|].
  eapply runs_bind_ok; [by eapply runs_getitem|].
  eapply runs_bind_ok; [by eapply runs_getitem|].
  destruct r as [st|e].
  - rewrite <- (app_nil_r evs). eapply runs_bind_ok; [exact Hloops|apply runs_ret].
  - eapply runs_bind_raise. exact Hloops.
Qed.

Lemma runs_grid_search σ param_space ps qs ds method train o sc :
  grid_at σ param_space ps qs ds ->
  supported method ->
  σ !! train = Some o ->
  (forall cfg, cfg ∈ product ps qs ds -> fitted_score method o cfg = Ok (sc cfg)) ->
  let best := best_cfg (scan sc (product ps qs ds) initial) in
  runs (grid_search param_space method train) σ
       (concat (map (fun cfg => visit_events method train (sc cfg) cfg) (product ps qs ds)))
       (Ok (best, {| est_train := train; est_order := best |})).
Proof.
  intros Hgrid Hm Ho Hsc best.
  apply (runs_grid_search_with σ param_space ps qs ds method train _
           (Ok (scan sc (product ps qs ds) initial))); [done|].
  by eapply runs_loops.
Qed.

(** An unsupported method on a non-empty grid: the first pass raises. *)
Lemma runs_grid_search_unsupported σ param_space p ps q qs d ds method train :
  grid_at σ param_space (p :: ps) (q :: qs) (d :: ds) ->
  ~ supported method ->
  runs (grid_search param_space method train) σ
       [EvPrint method None (p, q, d)] (Raise TypeError).
Proof.
  intros Hgrid Hm.
  apply (runs_grid_search_with σ param_space (p :: ps) (q :: qs) (d :: ds) method train _
           (Raise TypeError)); [done|].
  simpl. do 3 apply runs_bind_raise. by apply runs_visit_unsupported.
Qed.

(** A grid with an empty list: the loops are not entered. *)
Lemma runs_grid_search_empty σ param_space ps qs ds method train :
  grid_at σ param_space ps qs ds ->
  ps = [] \/ qs = [] \/ ds = [] ->
  runs (grid_search param_space method train) σ []
       (Ok (None, {| est_train := train; est_order := None |})).
Proof.
  intros Hgrid Hempty%product_nil.
  apply (runs_grid_search_with σ param_space ps qs ds method train [] (Ok initial));
    [done|].
  by apply runs_loops_empty.
Qed.

End GridSearch.

(** ** The claims on ARIMATuner *)

Section ARIMAClaims.
Context `{Statsmodels}.
Import ARIMATuner PyFloat PyFloatFacts.

(** C1 (amended).  For every param_space whose 'p', 'q' and 'd' entries are
    sequences of integers, every method among "aic", "bic" and "bse", and
    every training series on which every ARIMA fit of the grid succeeds and
    yields a score under the method (for "bse", a coefficient at index 1)
    that is not NaN, at least one of these scores being strictly below
    [float('inf')], [grid_search] returns a configuration of the Cartesian
    product p×q×d whose score under the method is less than or equal to the
    score of every combination of the product. *)
Theorem grid_search_minimum σ param_space ps qs ds method train o :
  grid_at σ param_space ps qs ds ->
  supported method ->
  σ !! train = Some o ->
  (forall cfg, cfg ∈ product ps qs ds ->
     exists s, fitted_score method o cfg = Ok s /\ is_nan s = false) ->
  (exists cfg s, cfg ∈ product ps qs ds /\
     fitted_score method o cfg = Ok s /\ lt s inf = true) ->
  returns_minimum σ param_space method train o (product ps qs ds).
Proof.
  intros Hgrid Hm Ho Hnum (cfg0 & s0 & Hcfg0 & Hs0 & Hlt0).
  assert (forall cfg, cfg ∈ product ps qs ds ->
            fitted_score method o cfg = Ok (score_of method o cfg)) as Hsc.
  { intros cfg (s & Hs & _)%Hnum. unfold score_of. by rewrite Hs. }
  destruct (scan_minimum (score_of method o) (product ps qs ds)) as (c & Hbest & Hc & Hmin).
  { intros cfg (s & Hs & Hnan)%Hnum. unfold score_of. by rewrite Hs. }
  { exists cfg0. split; [done|]. unfold score_of. by rewrite Hs0. }
  pose proof (runs_grid_search σ param_space ps qs ds method train o _ Hgrid Hm Ho Hsc)
    as Hrun.
  simpl in Hrun. rewrite Hbest in Hrun.
  eexists c, _, _. split; [exact Hrun|]. split; [done|].
  intros cfg' Hcfg'. exists (score_of method o c), (score_of method o cfg').
  repeat split; auto.
Qed.

(** C2 (amended).  For every input with a supported method on which every
    scoring call of the grid succeeds and the minimum of the scores that are
    numbers is strictly below [float('inf')], when two or more
    configurations attain that minimum [grid_search] returns the one that is
    enumerated first under the nested order with p outermost, q in the
    middle and d innermost (a configuration whose score is NaN never
    counts); and a pass of the loop body replaces the best configuration
    only on a strict improvement of the score. *)
Theorem grid_search_first_of_ties σ param_space ps qs ds method train o sc pre c post :
  grid_at σ param_space ps qs ds ->
  supported method ->
  σ !! train = Some o ->
  (forall cfg, cfg ∈ product ps qs ds -> fitted_score method o cfg = Ok (sc cfg)) ->
  product ps qs ds = pre ++ c :: post ->
  attains_number_min sc (product ps qs ds) c ->
  (forall x, x ∈ pre -> ~ attains_number_min sc (product ps qs ds) x) ->
  lt (sc c) inf = true ->
  (exists evs,
     runs (grid_search param_space method train) σ evs
          (Ok (Some c, {| est_train := train; est_order := Some c |}))) /\
  (forall p q d st w w' st',
     visit method train p q d st w = (w', Ok st') ->
     (best_cfg st' = best_cfg st /\ best_score st' = best_score st) \/
     (exists s, score st' = Some s /\ lt s (best_score st) = true /\
                best_score st' = s /\ best_cfg st' = Some (p, q, d))).
Proof.
  intros Hgrid Hm Ho Hsc Hsplit Hmin Hpre Hinf. split.
  - pose proof (runs_grid_search σ param_space ps qs ds method train o _ Hgrid Hm Ho Hsc)
      as Hrun.
    simpl in Hrun. rewrite Hsplit in Hrun, Hmin, Hpre.
    rewrite (scan_first_number_min sc pre c post Hmin Hpre Hinf) in Hrun.
    eexists. exact Hrun.
  - intros p q d st w w' st' Hvisit. unfold visit in Hvisit.
    apply bind_Ok_inv in Hvisit as (w1 & sco & _ & Hvisit).
    apply bind_Ok_inv in Hvisit as (w2 & [] & _ & Hvisit).
    destruct sco as [s|]; [|discriminate].
    destruct (lt s (best_score st)) eqn:Hlt; injection Hvisit as <- <-; simpl.
    + right. by exists s.
    + by left.
Qed.

(** C3 (amended).  For every training series and every non-empty p/q/d
    grid, [grid_search] with a method outside "aic", "bic" and "bse" fails
    with the [TypeError] of the comparison [None < best_score], at the
    first combination, after printing that combination's progress line with
    the score [None], and performs no model fitting before failing. *)
Theorem grid_search_unsupported σ param_space p ps q qs d ds method train :
  grid_at σ param_space (p :: ps) (q :: qs) (d :: ds) ->
  ~ supported method ->
  runs (grid_search param_space method train) σ
       [EvPrint method None (p, q, d)] (Raise TypeError) /\
  List.filter is_fit [EvPrint method None (p, q, d)] = [].
Proof.
  intros Hgrid Hm. split; [|done].
  exact (runs_grid_search_unsupported _ _ _ _ _ _ _ _ _ _ Hgrid Hm).
Qed.

(** C4 (amended).  For every training series and method, [grid_search] with
    an empty list for 'p' (or 'q' or 'd') fits no model, prints nothing and
    returns the null configuration ([best_cfg = None]) together with an
    estimator constructed with the order [None]. *)
Theorem grid_search_empty σ param_space ps qs ds method train :
  grid_at σ param_space ps qs ds ->
  ps = [] \/ qs = [] \/ ds = [] ->
  runs (grid_search param_space method train) σ []
       (Ok (None, {| est_train := train; est_order := None |})).
Proof.
  intros Hgrid Hempty. exact (runs_grid_search_empty _ _ _ _ _ _ _ Hgrid Hempty).
Qed.

End ARIMAClaims.

Section ARIMAClaimsCont.
Context `{Statsmodels}.
Import ARIMATuner PyFloat PyFloatFacts.



(** C7.  For all integers p, q, d and every training series on which the
    construction and the fit succeed, each of the three scoring helpers
    constructs one new ARIMA model of order (p, q, d) on the series, fits
    it once, and returns one scalar: the AIC helper the fit's [aic], the BIC
    helper its [bic], the BSE helper the entry of [bse] at index 1; with
    fewer than two coefficients that subscript raises [IndexError]. *)
Theorem scoring_helpers σ p q d train o model model_fit :
  σ !! train = Some o ->
  ARIMA o (p, q, d) = Ok model ->
  ARIMA_fit model = Ok model_fit ->
  let evs := [EvARIMA train (p, q, d); EvFit train (p, q, d)] in
  runs (_aic_arima_model p q d train) σ evs (Ok (aic model_fit)) /\
  runs (_bic_arima_model p q d train) σ evs (Ok (bic model_fit)) /\
  (forall x, bse model_fit !! 1%nat = Some x ->
     runs (_bse_arima_model p q d train) σ evs (Ok x)) /\
  ((length (bse model_fit) < 2)%nat ->
     runs (_bse_arima_model p q d train) σ evs (Raise IndexError)).
Proof.
  intros Ho Hm Hf evs. repeat split.
  - eapply runs_fitted; eauto. apply runs_ret.
  - eapply runs_fitted; eauto. apply runs_ret.
  - intros x Hx. eapply runs_fitted; eauto. rewrite Hx. apply runs_ret.
  - intros Hlen. eapply runs_fitted; eauto.
    rewrite (lookup_ge_None_2 (bse model_fit) 1) by lia. apply runs_raise.
Qed.

Lemma framed_new_ARIMA train cfg : framed (new_ARIMA train cfg).
Proof.
  apply framed_bind; [apply framed_deref|]. intros o.
  apply framed_bind; [apply framed_emit|]. intros _. apply framed_lift.
Qed.

Lemma framed_fit train cfg model : framed (fit train cfg model).
Proof. apply framed_bind; [apply framed_emit|]. intros _. apply framed_lift. Qed.

Lemma framed_aic p q d train : framed (_aic_arima_model p q d train).
Proof.
  apply framed_bind; [apply framed_new_ARIMA|]. intros model.
  apply framed_bind; [apply framed_fit|]. intros model_fit. apply framed_ret.
Qed.

Lemma framed_bic p q d train : framed (_bic_arima_model p q d train).
Proof.
  apply framed_bind; [apply framed_new_ARIMA|]. intros model.
  apply framed_bind; [apply framed_fit|]. intros model_fit. apply framed_ret.
Qed.

Lemma framed_bse p q d train : framed (_bse_arima_model p q d train).
Proof.
  apply framed_bind; [apply framed_new_ARIMA|]. intros model.
  apply framed_bind; [apply framed_fit|]. intros model_fit.
  destruct (bse model_fit !! 1%nat); auto with framed.
Qed.

Lemma framed_visit method train p q d st : framed (visit method train p q d st).
Proof.
  unfold visit. apply framed_bind.
  - destruct (String.eqb method "aic");
      [apply framed_bind; [apply framed_aic|auto with framed]|].
    destruct (String.eqb method "bic");
      [apply framed_bind; [apply framed_bic|auto with framed]|].
    destruct (String.eqb method "bse");
      [apply framed_bind; [apply framed_bse|auto with framed]|].
    apply framed_ret.
  - intros sco. apply framed_bind; [apply framed_emit|]. intros _.
    destruct sco as [s|]; [|apply framed_raise].
    destruct (lt s (best_score st)); apply framed_ret.
Qed.

Lemma framed_grid_search param_space method train :
  framed (grid_search param_space method train).
Proof.
  unfold grid_search.
  apply framed_bind; [apply framed_getitem|]. intros p_values.
  apply framed_bind; [apply framed_getitem|]. intros q_values.
  apply framed_bind; [apply framed_getitem|]. intros d_values.
  apply framed_bind; [|intros st; apply framed_ret].
  apply framed_for_each. intros p st.
  apply framed_for_each. intros q st'.
  apply framed_for_each. intros d st''. apply framed_visit.
Qed.

(** C9.  [grid_search] does not mutate its arguments: after every call the
    store, hence the param_space dict with its 'p', 'q' and 'd' lists and
    the training series, is what it was before the call; the call only
    appends to the events (the console output among them); and its outcome
    does not depend on them, so a later call that starts from the state an
    earlier call left has the outcome it would have had without it. *)
Theorem grid_search_frame param_space method train (w : world) :
  let out := grid_search param_space method train w in
  objs out.1 = objs w /\
  (exists evs, trace out.1 = trace w ++ evs) /\
  (forall w', objs w' = objs w ->
     (grid_search param_space method train w').2 = out.2) /\
  (grid_search param_space method train out.1).2 = out.2.
Proof.
  intros out.
  destruct (framed_run (grid_search param_space method train) w) as (Hobjs & Htrace & Hsame).
  { apply framed_grid_search. }
  repeat split; auto.
Qed.

End ARIMAClaimsCont.

(** ** The claims on GARCHTuner *)

(** C5.  For every input, [GARCHTuner.grid_search] fails at once with
    [NotImplementedError]: nothing is read, constructed or printed first. *)
Theorem garch_grid_search_not_implemented (self : GARCHTuner.instance)
    (p_values q_values : list Z) (w : world) :
  GARCHTuner.grid_search self p_values q_values w = (w, Raise NotImplementedError).
Proof. reflexivity. Qed.

(** C10.  Constructing a [GARCHTuner] always fails: [__init__] forwards its
    two arguments to [HyperparameterTuner.__init__], which accepts none, so
    every instantiation raises [TypeError] and yields no instance on which
    [grid_search] could be invoked. *)
Theorem garch_tuner_init_fails (args : list loc) (w : world) :
  HyperparameterTuner.__init__ [] w = (w, Ok tt) /\
  (forall df target, HyperparameterTuner.__init__ [df; target] w = (w, Raise TypeError)) /\
  GARCHTuner.__init__ args w = (w, Raise TypeError) /\
  GARCHTuner.new args w = (w, Raise TypeError).
Proof.
  split; [done|]. split; [done|].
  assert (GARCHTuner.__init__ args w = (w, Raise TypeError)) as Hinit.
  { destruct args as [|df [|target [|x args]]]; reflexivity. }
  split; [done|]. unfold GARCHTuner.new, mbind, M_bind. by rewrite Hinit.
Qed.

(** ** The claim on XGBTuner *)

Section XGBClaims.
Context `{Skopt}.
Import XGBTuner.

(** C8.  For every feature matrix X and target vector y,
    [bayesian_optimisation] builds the fixed space with n_estimators an
    integer in [100, 1000], max_depth an integer in [3, 13], learning_rate
    a real in [0.01, 1.0], gamma a real in [0, 5.0] and subsample a real in
    [0.5, 1], hands it with 50 iterations and 5-fold cross-validation to a
    search over an [XGBRegressor], runs that search once on X and y and
    returns the fitted controller; a failure of the fit is propagated. *)
Theorem bayesian_optimisation_spec σ X y oX oy :
  σ !! X = Some oX ->
  σ !! y = Some oy ->
  let c := BayesSearchCV_new XGBRegressor param_space 50 10 in
  (search_spaces c !! "n_estimators" = Some (Integer 100 1000) /\
   search_spaces c !! "max_depth" = Some (Integer 3 13) /\
   search_spaces c !! "learning_rate" = Some (Real (1 # 100) 1) /\
   search_spaces c !! "gamma" = Some (Real 0 5) /\
   search_spaces c !! "subsample" = Some (Real (1 # 2) 1) /\
   size (search_spaces c) = 5%nat) /\
  n_iter c = 50 /\
  n_splits c = 5 /\
  estimator c = XGBRegressor /\
  (forall r, BayesSearchCV_fit c oX oy = Ok r ->
     runs (bayesian_optimisation X y) σ [EvSearch X y 50 10]
          (Ok {| controller := c; fitted := Some r |})) /\
  (forall e, BayesSearchCV_fit c oX oy = Raise e ->
     runs (bayesian_optimisation X y) σ [EvSearch X y 50 10] (Raise e)).
Proof.
  intros HX Hy c. split; [by vm_compute|]. do 3 (split; [done|]).
  split.
  - intros r Hr. unfold bayesian_optimisation.
    rewrite <- (app_nil_r [EvSearch X y 50 10]).
    eapply runs_bind_ok; [|apply runs_ret]. unfold fit.
    change [EvSearch X y 50 10] with ([] ++ ([] ++ ([EvSearch X y 50 10] ++ ([] ++ [])))).
    eapply runs_bind_ok; [by apply runs_deref|].
    eapply runs_bind_ok; [by apply runs_deref|].
    eapply runs_bind_ok; [apply runs_emit|].
    eapply runs_bind_ok; [|apply runs_ret]. simpl. fold c. rewrite <- Hr. apply runs_lift.
  - intros e He. unfold bayesian_optimisation.
    apply runs_bind_raise. unfold fit.
    change [EvSearch X y 50 10] with ([] ++ ([] ++ ([EvSearch X y 50 10] ++ []))).
    eapply runs_bind_ok; [by apply runs_deref|].
    eapply runs_bind_ok; [by apply runs_deref|].
    eapply runs_bind_ok; [apply runs_emit|].
    apply runs_bind_raise. simpl. fold c. rewrite <- He. apply runs_lift.
Qed.

End XGBClaims.

(** ** The claims on concrete inputs *)

Ltac elems H :=
  repeat (apply elem_of_cons in H as [-> | H]); try (by apply elem_of_nil in H).

(** The search over p in [1, 2], q in [1], d in [0] by AIC. *)
Lemma grid_search_minimum_witness :
  let lib := Sample.table Sample.by_p in
  let σ := Sample.store [1; 2] [1] [0] in
  grid_at σ 1%positive [1; 2] [1] [0] /\
  supported "aic" /\
  σ !! 2%positive = Some Sample.series /\
  (forall cfg, cfg ∈ product [1; 2] [1] [0] ->
     exists s, fitted_score "aic" Sample.series cfg = Ok s /\ PyFloat.is_nan s = false) /\
  (exists cfg s, cfg ∈ product [1; 2] [1] [0] /\
     fitted_score "aic" Sample.series cfg = Ok s /\ PyFloat.lt s PyFloat.inf = true) /\
  returns_minimum σ 1%positive "aic" 2%positive Sample.series (product [1; 2] [1] [0]).
Proof.
  intros lib σ.
  assert (grid_at σ 1%positive [1; 2] [1] [0]) as H1
    by (exists (Sample.dict [1; 2] [1] [0]); repeat split; reflexivity).
  assert (supported "aic") as H2 by (left; reflexivity).
  assert (σ !! 2%positive = Some Sample.series) as H3 by reflexivity.
  assert (forall cfg, cfg ∈ product [1; 2] [1] [0] ->
     exists s, fitted_score "aic" Sample.series cfg = Ok s /\ PyFloat.is_nan s = false) as H4.
  { intros [[p q] d] _. eexists. split; [reflexivity|]. simpl.
    destruct (Z.eqb p 1), (Z.eqb p 2); reflexivity. }
  assert (exists cfg s, cfg ∈ product [1; 2] [1] [0] /\
     fitted_score "aic" Sample.series cfg = Ok s /\ PyFloat.lt s PyFloat.inf = true) as H5.
  { exists (1, 1, 0), Sample.one. split; [left|split; reflexivity]. }
  repeat (split; [assumption|]).
  exact (grid_search_minimum σ 1%positive [1; 2] [1] [0] "aic" 2%positive
           Sample.series H1 H2 H3 H4 H5).
Defined.

(** Every standard error NaN: nothing is ever a strict improvement on
    [float('inf')], and the search returns no configuration. *)
Lemma grid_search_nan_scores :
  let lib := Sample.table (Sample.flat PyFloat.nan) in
  let σ := Sample.store [1] [0] [1] in
  (grid_at σ 1%positive [1] [0] [1] /\
   supported "bse" /\
   σ !! 2%positive = Some Sample.series /\
   fits_succeed Sample.series (product [1] [0] [1])) /\
  runs (ARIMATuner.grid_search 1%positive "bse" 2%positive) σ
       (visit_events "bse" 2%positive PyFloat.nan (1, 0, 1))
       (Ok (None, {| est_train := 2%positive; est_order := None |})) /\
  ~ returns_minimum σ 1%positive "bse" 2%positive Sample.series (product [1] [0] [1]).
Proof.
  intros lib σ.
  assert (grid_at σ 1%positive [1] [0] [1]) as H1
    by (exists (Sample.dict [1] [0] [1]); repeat split; reflexivity).
  assert (supported "bse") as H2 by (right; right; reflexivity).
  assert (σ !! 2%positive = Some Sample.series) as H3 by reflexivity.
  assert (runs (ARIMATuner.grid_search 1%positive "bse" 2%positive) σ
            (visit_events "bse" 2%positive PyFloat.nan (1, 0, 1))
            (Ok (None, {| est_train := 2%positive; est_order := None |}))) as Hrun.
  { apply (runs_grid_search σ 1%positive [1] [0] [1] "bse" 2%positive Sample.series
             (fun _ => PyFloat.nan) H1 H2 H3).
    intros cfg _. reflexivity. }
  split; [|split; [exact Hrun|]].
  - repeat (split; [assumption|]).
    intros cfg _. by exists cfg, (Sample.flat PyFloat.nan cfg).
  - intros (c & model & evs & Hrun' & _).
    destruct (runs_inj _ _ _ _ _ _ Hrun Hrun') as [_ Heq]. discriminate.
Qed.

(** Two ties for the minimum: ARIMA(1,0,0) and ARIMA(1,1,0) both score 1.0,
    after two configurations that score NaN and two that score 2.0. *)
Lemma grid_search_first_of_ties_witness :
  let lib := Cases.nan_at_p3 in
  let σ := Sample.store [3; 2; 1] [0; 1] [0] in
  let sc := score_of "aic" Sample.series in
  let grid := product [3; 2; 1] [0; 1] [0] in
  let pre := [(3, 0, 0); (3, 1, 0); (2, 0, 0); (2, 1, 0)] in
  (grid_at σ 1%positive [3; 2; 1] [0; 1] [0] /\
   supported "aic" /\
   σ !! 2%positive = Some Sample.series /\
   (forall cfg, cfg ∈ grid -> fitted_score "aic" Sample.series cfg = Ok (sc cfg)) /\
   grid = pre ++ (1, 0, 0) :: [(1, 1, 0)] /\
   attains_number_min sc grid (1, 0, 0) /\
   attains_number_min sc grid (1, 1, 0) /\
   (forall x, x ∈ pre -> ~ attains_number_min sc grid x) /\
   PyFloat.lt (sc (1, 0, 0)) PyFloat.inf = true) /\
  exists evs,
    runs (ARIMATuner.grid_search 1%positive "aic" 2%positive) σ evs
         (Ok (Some (1, 0, 0), {| est_train := 2%positive; est_order := Some (1, 0, 0) |})).
Proof.
  intros lib σ sc grid pre.
  assert (grid_at σ 1%positive [3; 2; 1] [0; 1] [0]) as H1
    by (exists (Sample.dict [3; 2; 1] [0; 1] [0]); repeat split; reflexivity).
  assert (supported "aic") as H2 by (left; reflexivity).
  assert (σ !! 2%positive = Some Sample.series) as H3 by reflexivity.
  assert (forall cfg, cfg ∈ grid -> fitted_score "aic" Sample.series cfg = Ok (sc cfg))
    as H4.
  { intros [[p q] d] _. unfold sc, score_of, fitted_score. simpl.
    destruct (Z.eqb p 3); reflexivity. }
  assert (grid = pre ++ (1, 0, 0) :: [(1, 1, 0)]) as H5 by reflexivity.
  assert (attains_number_min sc grid (1, 0, 0)) as H6.
  { split; [reflexivity|]. intros cfg' Hin Hnum.
    elems Hin; vm_compute in Hnum |- *; congruence. }
  assert (attains_number_min sc grid (1, 1, 0)) as H6'.
  { split; [reflexivity|]. intros cfg' Hin Hnum.
    elems Hin; vm_compute in Hnum |- *; congruence. }
  assert (forall x, x ∈ pre -> ~ attains_number_min sc grid x) as H7.
  { intros x Hx [Hnum Hmin].
    assert (PyFloat.le (sc x) (sc (1, 0, 0)) = true) as Hle.
    { apply Hmin; [|reflexivity]. do 4 right. left. }
    elems Hx; vm_compute in Hnum, Hle; congruence. }
  assert (PyFloat.lt (sc (1, 0, 0)) PyFloat.inf = true) as H8 by reflexivity.
  split; [repeat (split; [assumption|]); assumption|].
  exact (proj1 (grid_search_first_of_ties (H := lib) σ 1%positive [3; 2; 1] [0; 1] [0]
                  "aic" 2%positive Sample.series sc pre (1, 0, 0) [(1, 1, 0)]
                  H1 H2 H3 H4 H5 H6 H7 H8)).
Defined.

(** Every score [float('inf')]: ARIMA(1,1,0) and ARIMA(2,1,0) tie for the
    minimum, no score is a strict improvement on the initial best score, and
    the search returns no configuration. *)
Lemma grid_search_all_inf_ties :
  let lib := Sample.table (Sample.flat PyFloat.inf) in
  let σ := Sample.store [1; 2] [1] [0] in
  let sc := fun _ : order => PyFloat.inf in
  let grid := product [1; 2] [1] [0] in
  (grid_at σ 1%positive [1; 2] [1] [0] /\
   supported "aic" /\
   σ !! 2%positive = Some Sample.series /\
   fits_succeed Sample.series grid /\
   (forall cfg, cfg ∈ grid -> fitted_score "aic" Sample.series cfg = Ok (sc cfg)) /\
   grid = [] ++ (1, 1, 0) :: [(2, 1, 0)] /\
   attains_min sc grid (1, 1, 0) /\
   attains_min sc grid (2, 1, 0)) /\
  runs (ARIMATuner.grid_search 1%positive "aic" 2%positive) σ
       (visit_events "aic" 2%positive PyFloat.inf (1, 1, 0)
        ++ visit_events "aic" 2%positive PyFloat.inf (2, 1, 0))
       (Ok (None, {| est_train := 2%positive; est_order := None |})) /\
  forall c, ~ returns_config σ 1%positive "aic" 2%positive c.
Proof.
  intros lib σ sc grid.
  assert (grid_at σ 1%positive [1; 2] [1] [0]) as H1
    by (exists (Sample.dict [1; 2] [1] [0]); repeat split; reflexivity).
  assert (supported "aic") as H2 by (left; reflexivity).
  assert (σ !! 2%positive = Some Sample.series) as H3 by reflexivity.
  assert (forall cfg, cfg ∈ grid -> fitted_score "aic" Sample.series cfg = Ok (sc cfg))
    as H4 by (intros cfg _; reflexivity).
  assert (runs (ARIMATuner.grid_search 1%positive "aic" 2%positive) σ
            (visit_events "aic" 2%positive PyFloat.inf (1, 1, 0)
             ++ visit_events "aic" 2%positive PyFloat.inf (2, 1, 0))
            (Ok (None, {| est_train := 2%positive; est_order := None |}))) as Hrun
    by exact (runs_grid_search (H := lib) σ 1%positive [1; 2] [1] [0] "aic" 2%positive
                Sample.series sc H1 H2 H3 H4).
  split; [|split; [exact Hrun|]].
  - repeat (split; [assumption|]).
    split; [intros cfg _; by exists cfg, (Sample.flat PyFloat.inf cfg)|].
    split; [assumption|]. split; [reflexivity|].
    split; intros cfg' Hin; reflexivity.
  - intros c (evs & model & Hrun').
    destruct (runs_inj _ _ _ _ _ _ Hrun Hrun') as [_ Heq]. discriminate.
Qed.

(** The method "unsupported" on a non-empty grid. *)
Lemma grid_search_unsupported_witness :
  let lib := Sample.table Sample.by_p in
  let σ := Sample.store [1; 2] [1] [0] in
  (grid_at σ 1%positive [1; 2] [1] [0] /\ ~ supported "unsupported") /\
  runs (ARIMATuner.grid_search 1%positive "unsupported" 2%positive) σ
       [EvPrint "unsupported" None (1, 1, 0)] (Raise TypeError) /\
  List.filter is_fit [EvPrint "unsupported" None (1, 1, 0)] = [].
Proof.
  intros lib σ.
  assert (grid_at σ 1%positive [1; 2] [1] [0]) as H1
    by (exists (Sample.dict [1; 2] [1] [0]); repeat split; reflexivity).
  assert (~ supported "unsupported") as H2
    by (intros [Hm | [Hm | Hm]]; discriminate Hm).
  split; [by split|].
  exact (grid_search_unsupported σ 1%positive 1 [2] 1 [] 0 [] "unsupported" 2%positive
           H1 H2).
Defined.

(** The exception is the [TypeError] of the comparison, not an
    [InvalidMethodError]. *)
Lemma grid_search_unsupported_not_invalid_method :
  let lib := Sample.table Sample.by_p in
  let σ := Sample.store [1; 2] [1] [0] in
  (grid_at σ 1%positive [1; 2] [1] [0] /\ ~ supported "unsupported") /\
  ~ fails_with σ 1%positive "unsupported" 2%positive InvalidMethodError.
Proof.
  intros lib σ. split.
  - split; [exists (Sample.dict [1; 2] [1] [0]); repeat split; reflexivity|].
    intros [Hm | [Hm | Hm]]; discriminate Hm.
  - intros (evs & Hrun).
    assert (runs (ARIMATuner.grid_search 1%positive "unsupported" 2%positive) σ
              [EvPrint "unsupported" None (1, 1, 0)] (Raise TypeError)) as Hrun'.
    { apply (runs_grid_search_unsupported σ 1%positive 1 [2] 1 [] 0 []).
      - exists (Sample.dict [1; 2] [1] [0]); repeat split; reflexivity.
      - intros [Hm | [Hm | Hm]]; discriminate Hm. }
    destruct (runs_inj _ _ _ _ _ _ Hrun Hrun') as [_ Heq]. discriminate.
Qed.

(** An empty list for 'p'. *)
Lemma grid_search_empty_witness :
  let lib := Sample.table Sample.by_p in
  let σ := Sample.store [] [1] [0] in
  (grid_at σ 1%positive [] [1] [0] /\ ([] = @nil Z \/ [1] = [] \/ [0] = [])) /\
  runs (ARIMATuner.grid_search 1%positive "aic" 2%positive) σ []
       (Ok (None, {| est_train := 2%positive; est_order := None |})).
Proof.
  intros lib σ.
  assert (grid_at σ 1%positive [] [1] [0]) as H1
    by (exists (Sample.dict [] [1] [0]); repeat split; reflexivity).
  assert ([] = @nil Z \/ [1] = [] \/ [0] = []) as H2 by (left; reflexivity).
  split; [by split|].
  exact (grid_search_empty σ 1%positive [] [1] [0] "aic" 2%positive H1 H2).
Defined.

(** With an empty 'p' list nothing fails: the null configuration comes back. *)
Lemma grid_search_empty_does_not_fail :
  let lib := Sample.table Sample.by_p in
  let σ := Sample.store [] [1] [0] in
  grid_at σ 1%positive [] [1] [0] /\
  ~ fails σ 1%positive "aic" 2%positive.
Proof.
  intros lib σ. split.
  - exists (Sample.dict [] [1] [0]); repeat split; reflexivity.
  - intros (evs & e & Hrun).
    assert (runs (ARIMATuner.grid_search 1%positive "aic" 2%positive) σ []
              (Ok (None, {| est_train := 2%positive; est_order := None |}))) as Hrun'.
    { apply (runs_grid_search_empty σ 1%positive [] [1] [0]); [|by left].
      exists (Sample.dict [] [1] [0]); repeat split; reflexivity. }
    destruct (runs_inj _ _ _ _ _ _ Hrun Hrun') as [_ Heq]. discriminate.
Qed.


(** The three helpers on ARIMA(1,1,0). *)
Lemma scoring_helpers_witness :
  let lib := Sample.table Sample.by_p in
  let σ := Sample.store [1; 2] [1] [0] in
  let evs := [EvARIMA 2%positive (1, 1, 0); EvFit 2%positive (1, 1, 0)] in
  (σ !! 2%positive = Some Sample.series /\
   ARIMA Sample.series (1, 1, 0) = Ok (1, 1, 0) /\
   ARIMA_fit (1, 1, 0) = Ok (Sample.by_p (1, 1, 0))) /\
  runs (ARIMATuner._aic_arima_model 1 1 0 2%positive) σ evs (Ok Sample.one) /\
  runs (ARIMATuner._bic_arima_model 1 1 0 2%positive) σ evs (Ok Sample.one) /\
  runs (ARIMATuner._bse_arima_model 1 1 0 2%positive) σ evs (Ok Sample.one).
Proof.
  intros lib σ evs.
  assert (σ !! 2%positive = Some Sample.series) as H1 by reflexivity.
  assert (ARIMA Sample.series (1, 1, 0) = Ok (1, 1, 0)) as H2 by reflexivity.
  assert (ARIMA_fit (1, 1, 0) = Ok (Sample.by_p (1, 1, 0))) as H3 by reflexivity.
  split; [by repeat split|].
  destruct (scoring_helpers (H := lib) σ 1 1 0 2%positive Sample.series (1, 1, 0)
              (Sample.by_p (1, 1, 0)) H1 H2 H3) as (Haic & Hbic & Hbse & _).
  split; [exact Haic|]. split; [exact Hbic|]. apply Hbse. reflexivity.
Defined.

(** A fit with a single coefficient: the BSE helper raises. *)
Example bse_single_coefficient :
  let lib := Sample.table (fun _ => {| aic := Sample.one; bic := Sample.two;
                                       bse := [Sample.three] |}) in
  runs (ARIMATuner._bse_arima_model 0 1 0 2%positive) (Sample.store [0] [1] [0])
       [EvARIMA 2%positive (0, 1, 0); EvFit 2%positive (0, 1, 0)] (Raise IndexError).
Proof.
  intros lib.
  apply (runs_fitted (H := lib) 2%positive (0, 1, 0) Sample.series (0, 1, 0)
           {| aic := Sample.one; bic := Sample.two; bse := [Sample.three] |});
    [reflexivity..|].
  apply runs_raise.
Qed.

(** The search over a feature matrix and a target vector held at
    references 2 and 2. *)
Lemma bayesian_optimisation_witness :
  let lib := Sample.skopt in
  let σ := Sample.store [] [] [] in
  let c := BayesSearchCV_new XGBRegressor XGBTuner.param_space 50 10 in
  (σ !! 2%positive = Some Sample.series /\
   BayesSearchCV_fit c Sample.series Sample.series = Ok tt) /\
  n_iter c = 50 /\
  n_splits c = 5 /\
  runs (XGBTuner.bayesian_optimisation 2%positive 2%positive) σ
       [EvSearch 2%positive 2%positive 50 10]
       (Ok {| controller := c; fitted := Some tt |}).
Proof.
  intros lib σ c.
  assert (σ !! 2%positive = Some Sample.series) as H1 by reflexivity.
  assert (BayesSearchCV_fit c Sample.series Sample.series = Ok tt) as H2 by reflexivity.
  split; [by split|].
  destruct (bayesian_optimisation_spec σ 2%positive 2%positive Sample.series Sample.series
              H1 H1) as (_ & Hiter & Hcv & _ & Hfit & _).
  split; [exact Hiter|]. split; [exact Hcv|]. apply Hfit. exact H2.
Defined.

(** * Further properties of ARIMATuner *)

(** ** Loops as one pass over the grid *)

Lemma runs_ext {A} (m m' : M A) σ evs r :
  (forall w, m w = m' w) -> runs m σ evs r -> runs m' σ evs r.
Proof. intros Heq Hrun t. rewrite <- Heq. apply Hrun. Qed.

Lemma for_each_app {A S} (l1 l2 : list A) (body : A -> S -> M S) (s : S) (w : world) :
  for_each (l1 ++ l2) body s w = (s' ← for_each l1 body s; for_each l2 body s') w.
Proof.
  revert s w. induction l1 as [|x l1 IH]; intros s w; simpl; [done|].
  unfold mbind, M_bind in *. destruct (body x s w) as [w1 [s1|e]]; [|done]. apply IH.
Qed.

Lemma for_each_ext {A S} (l : list A) (body body' : A -> S -> M S) (s : S) (w : world) :
  (forall x s w, body x s w = body' x s w) ->
  for_each l body s w = for_each l body' s w.
Proof.
  intros Heq. revert s w. induction l as [|x l IH]; intros s w; simpl; [done|].
  unfold mbind, M_bind. rewrite Heq. destruct (body' x s w) as [w1 [s1|e]]; [|done]. apply IH.
Qed.

Lemma for_each_bind {A B S} (l : list A) (f : A -> list B) (body : B -> S -> M S)
    (s : S) (w : world) :
  for_each (l ≫= f) body s w = for_each l (fun x s => for_each (f x) body s) s w.
Proof.
  revert s w. induction l as [|x l IH]; intros s w; [done|].
  rewrite bind_cons, for_each_app. simpl. unfold mbind at 1 3, M_bind.
  destruct (for_each (f x) body s w) as [w1 [s1|e]]; [|done]. apply IH.
Qed.

(** The three nested loops are one loop over [product]. *)
Lemma loops_flat {S} (ps qs ds : list Z) (body : order -> S -> M S) (s : S) (w : world) :
  for_each ps (fun p => for_each qs (fun q => for_each ds (fun d => body (p, q, d)))) s w
  = for_each (product ps qs ds) body s w.
Proof.
  unfold product. rewrite for_each_bind. apply for_each_ext. intros p s1 w1.
  rewrite for_each_bind. apply for_each_ext. intros q s2 w2.
  rewrite for_each_bind. apply for_each_ext. intros d s3 w3.
  simpl. unfold mbind, M_bind. by destruct (body (p, q, d) s3 w3) as [w4 [s4|e]].
Qed.

(** A loop whose passes succeed up to one that raises. *)
Lemma runs_for_each_abort {A S} (pre : list A) (c : A) (post : list A)
    (body : A -> S -> M S) (ev : A -> list event) (f : A -> S -> S) σ evc e :
  (forall x s, x ∈ pre -> runs (body x s) σ (ev x) (Ok (f x s))) ->
  (forall s, runs (body c s) σ evc (Raise e)) ->
  forall s, runs (for_each (pre ++ c :: post) body s) σ (concat (map ev pre) ++ evc) (Raise e).
Proof.
  intros Hpre Hc. induction pre as [|x pre IH]; intros s; simpl.
  - apply runs_bind_raise, Hc.
  - rewrite <- app_assoc. eapply runs_bind_ok.
    + apply Hpre. by left.
    + apply IH. intros y s' Hy. apply Hpre. by right.
Qed.

Section Abort.
Context `{Statsmodels}.
Import ARIMATuner PyFloat PyFloatFacts.

(** A scoring call in full: its events and its outcome, whether the library
    calls succeed or raise. *)
Lemma runs_scoring {B} train cfg o (k : ARIMAResults -> M B) (d : ARIMAResults -> res B) σ :
  σ !! train = Some o ->
  (forall model_fit, runs (k model_fit) σ [] (d model_fit)) ->
  runs (model ← new_ARIMA train cfg; model_fit ← fit train cfg model; k model_fit) σ
       (attempt_events o train cfg)
       match ARIMA o cfg with
       | Raise e => Raise e
       | Ok model =>
           match ARIMA_fit model with
           | Raise e => Raise e
           | Ok model_fit => d model_fit
           end
       end.
Proof.
  intros Ho Hk. pose proof (runs_new_ARIMA train cfg o σ Ho) as Hnew.
  unfold attempt_events. destruct (ARIMA o cfg) as [model|e].
  - change [EvARIMA train cfg; EvFit train cfg]
      with ([EvARIMA train cfg] ++ [EvFit train cfg]).
    eapply runs_bind_ok; [exact Hnew|].
    pose proof (runs_fit train cfg model σ) as Hfit.
    destruct (ARIMA_fit model) as [model_fit|e].
    + rewrite <- (app_nil_r [EvFit train cfg]). eapply runs_bind_ok; [exact Hfit|apply Hk].
    + by apply runs_bind_raise.
  - by apply runs_bind_raise.
Qed.

Lemma runs_aic_full p q d train o σ :
  σ !! train = Some o ->
  runs (_aic_arima_model p q d train) σ (attempt_events o train (p, q, d))
       (fitted_score "aic" o (p, q, d)).
Proof.
  intros Ho. apply (runs_scoring train (p, q, d) o _ (fun r => Ok (aic r)) σ Ho).
  intros model_fit. apply runs_ret.
Qed.

Lemma runs_bic_full p q d train o σ :
  σ !! train = Some o ->
  runs (_bic_arima_model p q d train) σ (attempt_events o train (p, q, d))
       (fitted_score "bic" o (p, q, d)).
Proof.
  intros Ho. apply (runs_scoring train (p, q, d) o _ (fun r => Ok (bic r)) σ Ho).
  intros model_fit. apply runs_ret.
Qed.

Lemma runs_bse_full p q d train o σ :
  σ !! train = Some o ->
  runs (_bse_arima_model p q d train) σ (attempt_events o train (p, q, d))
       (fitted_score "bse" o (p, q, d)).
Proof.
  intros Ho. apply (runs_scoring train (p, q, d) o _ (diagnostic "bse") σ Ho).
  intros model_fit. rewrite diagnostic_bse.
  destruct (bse model_fit !! 1%nat); [apply runs_ret|apply runs_raise].
Qed.

(** A pass of the loop body whose scoring call raises: the exception leaves
    the pass before the progress line. *)
Lemma runs_visit_abort method train p q d o e st σ :
  supported method ->
  σ !! train = Some o ->
  fitted_score method o (p, q, d) = Raise e ->
  runs (visit method train p q d st) σ (attempt_events o train (p, q, d)) (Raise e).
Proof.
  intros Hm Ho He. unfold visit. apply runs_bind_raise.
  destruct Hm as [-> | [-> | ->]]; simpl; apply runs_bind_raise; rewrite <- He.
  - by apply runs_aic_full.
  - by apply runs_bic_full.
  - by apply runs_bse_full.
Qed.

Lemma runs_grid_search_abort σ param_space ps qs ds method train o sc pre c post e :
  grid_at σ param_space ps qs ds ->
  supported method ->
  σ !! train = Some o ->
  product ps qs ds = pre ++ c :: post ->
  (forall cfg, cfg ∈ pre -> fitted_score method o cfg = Ok (sc cfg)) ->
  fitted_score method o c = Raise e ->
  runs (grid_search param_space method train) σ
       (concat (map (fun cfg => visit_events method train (sc cfg) cfg) pre)
        ++ attempt_events o train c)
       (Raise e).
Proof.
  intros Hgrid Hm Ho Hsplit Hpre Hc.
  apply (runs_grid_search_with σ param_space ps qs ds method train _ (Raise e)); [done|].
  eapply runs_ext.
  { intros w. symmetry.
    apply (loops_flat ps qs ds (fun '(p, q, d) => visit method train p q d)). }
  rewrite Hsplit.
  apply (runs_for_each_abort pre c post _
           (fun cfg => visit_events method train (sc cfg) cfg)
           (fun cfg st => step (sc cfg) cfg st)).
  - intros [[p q] d] st Hin. eapply runs_visit; eauto.
  - intros st. destruct c as [[p q] d]. by eapply runs_visit_abort.
Qed.

End Abort.

(** ** Missing entries of param_space *)

Section Further.
Context `{Statsmodels}.
Import ARIMATuner PyFloat PyFloatFacts.

Lemma runs_getitem_missing (l : loc) (key : string) (dict : gmap string (list Z)) σ :
  σ !! l = Some (PyDict dict) -> dict !! key = None ->
  runs (getitem l key) σ [] (Raise KeyError).
Proof.
  intros Hl Hk. unfold getitem. change [] with (@nil event ++ []).
  eapply runs_bind_ok; [by apply runs_deref|]. simpl. rewrite Hk. apply runs_raise.
Qed.

(** When the dict lacks 'p', 'q' or 'd', [grid_search] raises [KeyError]
    before it constructs, fits or prints anything, whatever the method, the
    other entries and the training series. *)
Theorem grid_search_missing_key σ param_space dict key method train :
  σ !! param_space = Some (PyDict dict) ->
  key ∈ grid_keys ->
  dict !! key = None ->
  runs (grid_search param_space method train) σ [] (Raise KeyError).
Proof.
  intros Hdict Hkey Hnone. unfold grid_search.
  destruct (dict !! "p") as [ps|] eqn:Hp;
    [|apply runs_bind_raise; by eapply runs_getitem_missing].
  change [] with (@nil event ++ []).
  eapply runs_bind_ok; [by eapply runs_getitem|].
  destruct (dict !! "q") as [qs|] eqn:Hq;
    [|apply runs_bind_raise; by eapply runs_getitem_missing].
  change [] with (@nil event ++ []).
  eapply runs_bind_ok; [by eapply runs_getitem|].
  destruct (dict !! "d") as [ds|] eqn:Hd;
    [|apply runs_bind_raise; by eapply runs_getitem_missing].
  unfold grid_keys in Hkey.
  repeat (apply elem_of_cons in Hkey as [-> | Hkey]); try congruence.
  by apply elem_of_nil in Hkey.
Qed.

(** ** A failing fit aborts the search *)

Lemma filter_print_visits method train (sc : order -> float) (l : list order) :
  List.filter is_print (concat (map (fun cfg => visit_events method train (sc cfg) cfg) l))
  = map (fun cfg => EvPrint method (Some (sc cfg)) cfg) l.
Proof. induction l as [|c l IH]; simpl; [done|]. by rewrite IH. Qed.

Lemma filter_construction_visits method train (sc : order -> float) (l : list order) :
  List.filter is_construction
    (concat (map (fun cfg => visit_events method train (sc cfg) cfg) l))
  = map (EvARIMA train) l.
Proof. induction l as [|c l IH]; simpl; [done|]. by rewrite IH. Qed.

Lemma filter_fitting_visits method train (sc : order -> float) (l : list order) :
  List.filter is_fitting
    (concat (map (fun cfg => visit_events method train (sc cfg) cfg) l))
  = map (EvFit train) l.
Proof. induction l as [|c l IH]; simpl; [done|]. by rewrite IH. Qed.

Lemma filter_print_attempt o train cfg :
  List.filter is_print (attempt_events o train cfg) = [].
Proof. unfold attempt_events. by destruct (ARIMA o cfg). Qed.

(** Under a supported method, when the scoring call of a configuration
    raises and those of the configurations enumerated before it succeed,
    [grid_search] raises that exception: the earlier configurations were
    fitted and printed, the failing one was attempted and not printed, and
    the later ones were never tried. *)
Theorem grid_search_fit_failure σ param_space ps qs ds method train o sc pre c post e :
  grid_at σ param_space ps qs ds ->
  supported method ->
  σ !! train = Some o ->
  product ps qs ds = pre ++ c :: post ->
  (forall cfg, cfg ∈ pre -> fitted_score method o cfg = Ok (sc cfg)) ->
  fitted_score method o c = Raise e ->
  let evs := concat (map (fun cfg => visit_events method train (sc cfg) cfg) pre)
             ++ attempt_events o train c in
  runs (grid_search param_space method train) σ evs (Raise e) /\
  List.filter is_print evs = map (fun cfg => EvPrint method (Some (sc cfg)) cfg) pre.
Proof.
  intros Hgrid Hm Ho Hsplit Hpre Hc evs. split.
  - by eapply runs_grid_search_abort.
  - unfold evs. by rewrite List.filter_app, filter_print_visits, filter_print_attempt,
      app_nil_r.
Qed.

(** A search by "bse" stops with [IndexError] at the first configuration
    whose fit has fewer than two coefficients. *)
Theorem grid_search_bse_single_coefficient
    σ param_space ps qs ds train o sc pre c post model model_fit :
  grid_at σ param_space ps qs ds ->
  σ !! train = Some o ->
  product ps qs ds = pre ++ c :: post ->
  (forall cfg, cfg ∈ pre -> fitted_score "bse" o cfg = Ok (sc cfg)) ->
  ARIMA o c = Ok model ->
  ARIMA_fit model = Ok model_fit ->
  (length (bse model_fit) < 2)%nat ->
  runs (grid_search param_space "bse" train) σ
       (concat (map (fun cfg => visit_events "bse" train (sc cfg) cfg) pre)
        ++ [EvARIMA train c; EvFit train c])
       (Raise IndexError).
Proof.
  intros Hgrid Ho Hsplit Hpre Hmodel Hfit Hlen.
  assert (fitted_score "bse" o c = Raise IndexError) as Hc.
  { unfold fitted_score. rewrite Hmodel, Hfit, diagnostic_bse.
    by rewrite (lookup_ge_None_2 (bse model_fit) 1) by lia. }
  assert (attempt_events o train c = [EvARIMA train c; EvFit train c]) as <-
    by (unfold attempt_events; by rewrite Hmodel).
  eapply runs_grid_search_abort; eauto. right; right; reflexivity.
Qed.

(** The three helpers propagate a failure of the library: when the
    construction raises, no fit is attempted; when the fit raises, its
    exception is the outcome. *)
Theorem scoring_helpers_propagate σ p q d train o e :
  σ !! train = Some o ->
  (ARIMA o (p, q, d) = Raise e ->
     runs (_aic_arima_model p q d train) σ [EvARIMA train (p, q, d)] (Raise e) /\
     runs (_bic_arima_model p q d train) σ [EvARIMA train (p, q, d)] (Raise e) /\
     runs (_bse_arima_model p q d train) σ [EvARIMA train (p, q, d)] (Raise e)) /\
  (forall model, ARIMA o (p, q, d) = Ok model -> ARIMA_fit model = Raise e ->
     let evs := [EvARIMA train (p, q, d); EvFit train (p, q, d)] in
     runs (_aic_arima_model p q d train) σ evs (Raise e) /\
     runs (_bic_arima_model p q d train) σ evs (Raise e) /\
     runs (_bse_arima_model p q d train) σ evs (Raise e)).
Proof.
  intros Ho.
  pose proof (runs_aic_full p q d train o σ Ho) as Haic.
  pose proof (runs_bic_full p q d train o σ Ho) as Hbic.
  pose proof (runs_bse_full p q d train o σ Ho) as Hbse.
  unfold fitted_score, attempt_events in Haic, Hbic, Hbse. split.
  - intros Hnew. rewrite Hnew in Haic, Hbic, Hbse. done.
  - intros model Hnew Hfit evs. rewrite Hnew, Hfit in Haic, Hbic, Hbse. done.
Qed.

(** ** The work of a search *)

Lemma length_bind_const {A B} (f : A -> list B) (l : list A) (n : nat) :
  (forall x, length (f x) = n) -> length (l ≫= f) = (length l * n)%nat.
Proof.
  intros Hf. induction l as [|x l IH]; [done|].
  rewrite bind_cons, length_app, IH, Hf. simpl. lia.
Qed.

Lemma length_product (ps qs ds : list Z) :
  length (product ps qs ds) = (length ps * length qs * length ds)%nat.
Proof.
  unfold product.
  rewrite (length_bind_const _ ps (length qs * length ds)); [lia|]. intros p.
  rewrite (length_bind_const _ qs (length ds)); [lia|]. intros q.
  rewrite (length_bind_const _ ds 1); [lia|]. done.
Qed.

(** A search that succeeds constructs one model, fits it once and prints one
    line for every configuration, in the order p outermost, q in the middle,
    d innermost: |p|·|q|·|d| of each, and each line carries the score of its
    configuration. *)
Theorem grid_search_work σ param_space ps qs ds method train o sc :
  grid_at σ param_space ps qs ds ->
  supported method ->
  σ !! train = Some o ->
  (forall cfg, cfg ∈ product ps qs ds -> fitted_score method o cfg = Ok (sc cfg)) ->
  exists evs r,
    runs (grid_search param_space method train) σ evs (Ok r) /\
    List.filter is_construction evs = map (EvARIMA train) (product ps qs ds) /\
    List.filter is_fitting evs = map (EvFit train) (product ps qs ds) /\
    List.filter is_print evs
      = map (fun cfg => EvPrint method (Some (sc cfg)) cfg) (product ps qs ds) /\
    length (product ps qs ds) = (length ps * length qs * length ds)%nat.
Proof.
  intros Hgrid Hm Ho Hsc. eexists _, _. split.
  - by eapply runs_grid_search.
  - rewrite filter_construction_visits, filter_fitting_visits, filter_print_visits.
    repeat split. apply length_product.
Qed.

End Further.

(** ** The configuration a search returns, with NaN and infinite scores *)

Lemma float_le_antisym (x y : PyFloat.float) :
  PyFloat.le x y = true -> PyFloat.le y x = true -> PyFloat.eq x y = true.
Proof.
  intros Hxy Hyx. unfold PyFloat.eq, SFeqb.
  pose proof (PyFloatFacts.compare_key x y) as Hc.
  destruct (SFcompare x y) as [[| |]|] eqn:Hcmp; [done| | |].
  - assert (PyFloat.lt x y = true) as Hlt by (unfold PyFloat.lt, SFltb; by rewrite Hcmp).
    apply PyFloatFacts.lt_not_le in Hlt. congruence.
  - unfold PyFloat.le, SFleb in Hxy. by rewrite Hcmp in Hxy.
  - unfold PyFloat.le, SFleb in Hxy. by rewrite Hcmp in Hxy.
Qed.

Section Selection.
Import ARIMATuner PyFloat PyFloatFacts.
Variable sc : order -> float.

(** The configuration kept is below [inf], and at most every score that is
    a number. *)
Lemma scan_best_among_numbers grid c :
  best_cfg (scan sc grid initial) = Some c ->
  c ∈ grid /\ lt (sc c) inf = true /\ is_nan (sc c) = false /\
  forall x, x ∈ grid -> is_nan (sc x) = false -> le (sc c) (sc x) = true.
Proof.
  intros Hbest. pose proof (scan_first_best sc grid) as Hinv.
  unfold first_best in Hinv. rewrite Hbest in Hinv.
  destruct Hinv as (l1 & l2 & Heq & _ & Hinf & Hl1 & Hl2).
  assert (is_nan (sc c) = false) as Hc by by apply lt_inf_nan.
  split; [rewrite Heq; apply elem_of_app; right; by left|].
  repeat split; auto.
  intros x Hx Hnum. rewrite Heq in Hx.
  apply elem_of_app in Hx as [Hx|Hx]; [apply not_le_le; auto|].
  apply elem_of_cons in Hx as [->|Hx]; [by apply le_refl|apply not_lt_le; auto].
Qed.

Lemma scan_none_iff grid :
  best_cfg (scan sc grid initial) = None <->
  forall x, x ∈ grid -> lt (sc x) inf = false.
Proof.
  pose proof (scan_first_best sc grid) as Hinv. unfold first_best in Hinv.
  destruct (best_cfg (scan sc grid initial)) as [c|].
  - destruct Hinv as (l1 & l2 & Heq & _ & Hinf & _). split; [done|].
    intros Hall. rewrite Hall in Hinf; [done|].
    rewrite Heq. apply elem_of_app. right. by left.
  - by destruct Hinv as [_ Hall].
Qed.

(** A grid inside another one: the larger grid's best score is at most the
    smaller grid's. *)
Lemma scan_subgrid grid grid' :
  (forall x, x ∈ grid -> x ∈ grid') ->
  (forall x, x ∈ grid' -> is_nan (sc x) = false) ->
  (exists x, x ∈ grid /\ lt (sc x) inf = true) ->
  exists c c',
    best_cfg (scan sc grid initial) = Some c /\
    best_cfg (scan sc grid' initial) = Some c' /\
    c ∈ grid /\ c' ∈ grid' /\ le (sc c') (sc c) = true.
Proof.
  intros Hsub Hnum (x0 & Hx0 & Hlt0).
  destruct (scan_minimum sc grid) as (c & Hc & Hin & _); [auto|by exists x0|].
  destruct (scan_minimum sc grid') as (c' & Hc' & Hin' & Hmin'); [auto|exists x0; auto|].
  exists c, c'. repeat split; auto.
Qed.

End Selection.

Section SelectionClaims.
Context `{Statsmodels}.
Import ARIMATuner PyFloat PyFloatFacts.

(** Under a supported method whose scoring calls all succeed, [grid_search]
    returns the null configuration exactly when no score is strictly below
    [float('inf')], that is, when every score is NaN or [+inf]. *)
Theorem grid_search_none_iff σ param_space ps qs ds method train o sc :
  grid_at σ param_space ps qs ds ->
  supported method ->
  σ !! train = Some o ->
  (forall cfg, cfg ∈ product ps qs ds -> fitted_score method o cfg = Ok (sc cfg)) ->
  exists evs best,
    runs (grid_search param_space method train) σ evs
         (Ok (best, {| est_train := train; est_order := best |})) /\
    (best = None <-> forall cfg, cfg ∈ product ps qs ds -> lt (sc cfg) inf = false).
Proof.
  intros Hgrid Hm Ho Hsc. eexists _, _. split.
  - by eapply runs_grid_search.
  - simpl. apply scan_none_iff.
Qed.

(** Configurations whose score is NaN are passed over: a configuration that
    [grid_search] returns has a score that is a number strictly below
    [float('inf')] and at most the score of every configuration of the grid
    whose score is a number. *)
Theorem grid_search_skips_nan σ param_space ps qs ds method train o sc c model evs :
  grid_at σ param_space ps qs ds ->
  supported method ->
  σ !! train = Some o ->
  (forall cfg, cfg ∈ product ps qs ds -> fitted_score method o cfg = Ok (sc cfg)) ->
  runs (grid_search param_space method train) σ evs (Ok (Some c, model)) ->
  c ∈ product ps qs ds /\
  is_nan (sc c) = false /\
  lt (sc c) inf = true /\
  forall cfg', cfg' ∈ product ps qs ds -> is_nan (sc cfg') = false ->
    le (sc c) (sc cfg') = true.
Proof.
  intros Hgrid Hm Ho Hsc Hrun.
  pose proof (runs_grid_search σ param_space ps qs ds method train o sc Hgrid Hm Ho Hsc)
    as Hrun'. simpl in Hrun'.
  destruct (runs_inj _ _ _ _ _ _ Hrun Hrun') as [_ Heq].
  injection Heq as Hbest _.
  destruct (scan_best_among_numbers sc (product ps qs ds) c) as (? & ? & ? & ?); auto.
Qed.

(** Enlarging the lists never gives a worse score: when every value of the
    lists of one dict also appears in the lists of another, the score of the
    configuration found on the larger grid is at most the score of the one
    found on the smaller grid. *)
Theorem grid_search_larger_grid
    σ param_space param_space' ps qs ds ps' qs' ds' method train o :
  grid_at σ param_space ps qs ds ->
  grid_at σ param_space' ps' qs' ds' ->
  ps ⊆ ps' -> qs ⊆ qs' -> ds ⊆ ds' ->
  supported method ->
  σ !! train = Some o ->
  (forall cfg, cfg ∈ product ps' qs' ds' ->
     exists s, fitted_score method o cfg = Ok s /\ is_nan s = false) ->
  (exists cfg s, cfg ∈ product ps qs ds /\
     fitted_score method o cfg = Ok s /\ lt s inf = true) ->
  exists c c' evs evs',
    runs (grid_search param_space method train) σ evs
         (Ok (Some c, {| est_train := train; est_order := Some c |})) /\
    runs (grid_search param_space' method train) σ evs'
         (Ok (Some c', {| est_train := train; est_order := Some c' |})) /\
    le (score_of method o c') (score_of method o c) = true.
Proof.
  intros Hgrid Hgrid' Hps Hqs Hds Hm Ho Hnum (cfg0 & s0 & Hcfg0 & Hs0 & Hlt0).
  assert (forall x, x ∈ product ps qs ds -> x ∈ product ps' qs' ds') as Hsub.
  { intros [[p q] d] (Hp & Hq & Hd)%elem_of_product. apply elem_of_product. auto. }
  assert (forall cfg, cfg ∈ product ps' qs' ds' ->
            fitted_score method o cfg = Ok (score_of method o cfg)) as Hsc'.
  { intros cfg (s & Hs & _)%Hnum. unfold score_of. by rewrite Hs. }
  destruct (scan_subgrid (score_of method o) (product ps qs ds) (product ps' qs' ds'))
    as (c & c' & Hc & Hc' & _ & _ & Hle); [done| |..].
  { intros cfg (s & Hs & Hnan)%Hnum. unfold score_of. by rewrite Hs. }
  { exists cfg0. split; [done|]. unfold score_of. by rewrite Hs0. }
  pose proof (runs_grid_search σ param_space ps qs ds method train o _ Hgrid Hm Ho
                (fun cfg Hin => Hsc' cfg (Hsub cfg Hin))) as Hrun.
  pose proof (runs_grid_search σ param_space' ps' qs' ds' method train o _ Hgrid' Hm Ho
                Hsc') as Hrun'.
  simpl in Hrun, Hrun'. rewrite Hc in Hrun. rewrite Hc' in Hrun'.
  by eexists c, c', _, _.
Qed.

(** The order of the values, and their repetitions, do not change the best
    score: two dicts whose lists hold the same values lead to configurations
    with equal scores (on a tie for the minimum, possibly to different
    configurations). *)
Theorem grid_search_reordered
    σ param_space param_space' ps qs ds ps' qs' ds' method train o :
  grid_at σ param_space ps qs ds ->
  grid_at σ param_space' ps' qs' ds' ->
  (forall x, x ∈ ps <-> x ∈ ps') ->
  (forall x, x ∈ qs <-> x ∈ qs') ->
  (forall x, x ∈ ds <-> x ∈ ds') ->
  supported method ->
  σ !! train = Some o ->
  (forall cfg, cfg ∈ product ps qs ds ->
     exists s, fitted_score method o cfg = Ok s /\ is_nan s = false) ->
  (exists cfg s, cfg ∈ product ps qs ds /\
     fitted_score method o cfg = Ok s /\ lt s inf = true) ->
  exists c c' evs evs',
    runs (grid_search param_space method train) σ evs
         (Ok (Some c, {| est_train := train; est_order := Some c |})) /\
    runs (grid_search param_space' method train) σ evs'
         (Ok (Some c', {| est_train := train; est_order := Some c' |})) /\
    eq (score_of method o c) (score_of method o c') = true.
Proof.
  intros Hgrid Hgrid' Hps Hqs Hds Hm Ho Hnum (cfg0 & s0 & Hcfg0 & Hs0 & Hlt0).
  assert (forall x, x ∈ product ps qs ds <-> x ∈ product ps' qs' ds') as Hsame.
  { intros [[p q] d]. rewrite !elem_of_product, Hps, Hqs, Hds. done. }
  assert (forall cfg, cfg ∈ product ps qs ds ->
            fitted_score method o cfg = Ok (score_of method o cfg)) as Hsc.
  { intros cfg (s & Hs & _)%Hnum. unfold score_of. by rewrite Hs. }
  assert (forall cfg, cfg ∈ product ps qs ds -> is_nan (score_of method o cfg) = false)
    as Hnan.
  { intros cfg (s & Hs & Hnan)%Hnum. unfold score_of. by rewrite Hs. }
  assert (exists x, x ∈ product ps qs ds /\ lt (score_of method o x) inf = true) as Hlt.
  { exists cfg0. split; [done|]. unfold score_of. by rewrite Hs0. }
  destruct (scan_subgrid (score_of method o) (product ps qs ds) (product ps' qs' ds'))
    as (c & c' & Hc & Hc' & Hin & Hin' & Hle).
  { intros x. apply Hsame. }
  { intros x Hx%Hsame. auto. }
  { done. }
  destruct (scan_minimum (score_of method o) (product ps qs ds)) as (c1 & Hc1 & _ & Hmin);
    [done..|].
  rewrite Hc in Hc1. injection Hc1 as <-.
  pose proof (runs_grid_search σ param_space ps qs ds method train o _ Hgrid Hm Ho Hsc)
    as Hrun.
  pose proof (runs_grid_search σ param_space' ps' qs' ds' method train o _ Hgrid' Hm Ho
                (fun cfg Hin => Hsc cfg (proj2 (Hsame cfg) Hin))) as Hrun'.
  simpl in Hrun, Hrun'. rewrite Hc in Hrun. rewrite Hc' in Hrun'.
  eexists c, c', _, _. split; [exact Hrun|]. split; [exact Hrun'|].
  apply float_le_antisym; [|done]. apply Hmin. by apply Hsame.
Qed.

End SelectionClaims.

(** ** _find_d_values *)

(** No class of the module provides [is_stationary], so [_find_d_values]
    raises [AttributeError] at its first statement for every training
    series, whatever a stationarity test would answer: it returns neither 0
    nor a list, and the loop is never entered. *)
Theorem find_d_values_attribute_error
    (is_stationary_body : loc -> M bool) (y_train_shift : Z -> M loc)
    (fuel : nat) (train : loc) σ :
  (forall c, lookup_attr c "is_stationary" = None) /\
  runs (ARIMATuner._find_d_values is_stationary_body y_train_shift fuel train) σ []
       (Raise AttributeError).
Proof.
  split; [by intros []|].
  unfold ARIMATuner._find_d_values, ARIMATuner.is_stationary.
  do 2 apply runs_bind_raise. apply runs_raise.
Qed.

(** ** No failure is swallowed *)

Lemma first_failure {A} (P : A -> Prop) (l : list A) :
  (forall x, P x \/ ~ P x) ->
  (forall x, x ∈ l -> P x) \/
  (exists pre c post, l = pre ++ c :: post /\ (forall x, x ∈ pre -> P x) /\ ~ P c).
Proof.
  intros Hdec. induction l as [|x l IH].
  - left. by intros x ?%elem_of_nil.
  - destruct (Hdec x) as [Hx|Hx].
    + destruct IH as [Hall|(pre & c & post & -> & Hpre & Hc)].
      * left. intros y [->|Hy]%elem_of_cons; auto.
      * right. exists (x :: pre), c, post. repeat split; auto.
        intros y [->|Hy]%elem_of_cons; auto.
    + right. exists [], x, l. repeat split; auto. by intros y ?%elem_of_nil.
Qed.

Section NoSwallow.
Context `{Statsmodels}.
Import ARIMATuner.

(** Under a supported method [grid_search] returns only when the scoring
    call of every configuration of the grid succeeded: no failing
    configuration is skipped. *)
Theorem grid_search_returns_only_if_all_fit
    σ param_space ps qs ds method train o evs r :
  grid_at σ param_space ps qs ds ->
  supported method ->
  σ !! train = Some o ->
  runs (grid_search param_space method train) σ evs (Ok r) ->
  forall cfg, cfg ∈ product ps qs ds -> exists s, fitted_score method o cfg = Ok s.
Proof.
  intros Hgrid Hm Ho Hrun.
  destruct (first_failure (fun cfg => exists s, fitted_score method o cfg = Ok s)
              (product ps qs ds)) as [Hall|(pre & c & post & Hsplit & Hpre & Hc)].
  - intros cfg. destruct (fitted_score method o cfg) as [s|e]; [left; by exists s|].
    right. by intros [s Hs].
  - exact Hall.
  - destruct (fitted_score method o c) as [s|e] eqn:He; [destruct Hc; by exists s|].
    assert (forall cfg, cfg ∈ pre ->
              fitted_score method o cfg = Ok (score_of method o cfg)) as Hsc.
    { intros cfg (s & Hs)%Hpre. unfold score_of. by rewrite Hs. }
    pose proof (runs_grid_search_abort σ param_space ps qs ds method train o _
                  pre c post e Hgrid Hm Ho Hsplit Hsc He) as Hrun'.
    destruct (runs_inj _ _ _ _ _ _ Hrun Hrun') as [_ Heq]. discriminate.
Qed.

End NoSwallow.

(** ** The further properties on concrete inputs *)

Lemma grid_search_missing_key_witness :
  let lib := Sample.table Sample.by_p in
  let dict : gmap string (list Z) := <["p" := [1]]> (<["d" := [0]]> ∅) in
  (Cases.store_without_q !! 1%positive = Some (PyDict dict) /\
   "q" ∈ grid_keys /\
   dict !! "q" = None) /\
  runs (ARIMATuner.grid_search 1%positive "aic" 2%positive) Cases.store_without_q []
       (Raise KeyError).
Proof.
  intros lib dict.
  assert (Cases.store_without_q !! 1%positive = Some (PyDict dict)) as H1 by reflexivity.
  assert ("q" ∈ grid_keys) as H2 by (right; left).
  assert (dict !! "q" = None) as H3 by reflexivity.
  split; [by repeat split|].
  exact (grid_search_missing_key Cases.store_without_q 1%positive dict "q" "aic"
           2%positive H1 H2 H3).
Defined.

(** The fit of ARIMA(2,1,0) raises in a search over p in [1, 2, 3]. *)
Lemma grid_search_fit_failure_witness :
  let e := OtherError "LinAlgError" in
  let lib := Cases.fit_fails_at (2, 1, 0) e in
  let σ := Sample.store [1; 2; 3] [1] [0] in
  let sc := fun cfg => aic (Sample.by_p cfg) in
  (grid_at σ 1%positive [1; 2; 3] [1] [0] /\
   supported "aic" /\
   σ !! 2%positive = Some Sample.series /\
   product [1; 2; 3] [1] [0] = [(1, 1, 0)] ++ (2, 1, 0) :: [(3, 1, 0)] /\
   (forall cfg, cfg ∈ [(1, 1, 0)] -> fitted_score "aic" Sample.series cfg = Ok (sc cfg)) /\
   fitted_score "aic" Sample.series (2, 1, 0) = Raise e) /\
  runs (ARIMATuner.grid_search 1%positive "aic" 2%positive) σ
       (visit_events "aic" 2%positive Sample.one (1, 1, 0)
        ++ [EvARIMA 2%positive (2, 1, 0); EvFit 2%positive (2, 1, 0)])
       (Raise e).
Proof.
  intros e lib σ sc.
  assert (grid_at σ 1%positive [1; 2; 3] [1] [0]) as H1
    by (exists (Sample.dict [1; 2; 3] [1] [0]); repeat split; reflexivity).
  assert (supported "aic") as H2 by (left; reflexivity).
  assert (σ !! 2%positive = Some Sample.series) as H3 by reflexivity.
  assert (product [1; 2; 3] [1] [0] = [(1, 1, 0)] ++ (2, 1, 0) :: [(3, 1, 0)]) as H4
    by reflexivity.
  assert (forall cfg, cfg ∈ [(1, 1, 0)] ->
            fitted_score "aic" Sample.series cfg = Ok (sc cfg)) as H5
    by (intros cfg Hin; elems Hin; reflexivity).
  assert (fitted_score "aic" Sample.series (2, 1, 0) = Raise e) as H6 by reflexivity.
  split; [by repeat split|].
  exact (proj1 (grid_search_fit_failure (H := lib) σ 1%positive [1; 2; 3] [1] [0] "aic"
                  2%positive Sample.series sc [(1, 1, 0)] (2, 1, 0) [(3, 1, 0)] e
                  H1 H2 H3 H4 H5 H6)).
Defined.

(** ARIMA(1,1,0) has a single coefficient in a search by "bse". *)
Lemma grid_search_bse_single_coefficient_witness :
  let lib := Cases.short_bse in
  let σ := Sample.store [1] [0; 1] [0] in
  let sc := fun _ : order => Sample.one in
  let model_fit := {| aic := Sample.one; bic := Sample.one; bse := [Sample.two] |} in
  (grid_at σ 1%positive [1] [0; 1] [0] /\
   σ !! 2%positive = Some Sample.series /\
   product [1] [0; 1] [0] = [(1, 0, 0)] ++ (1, 1, 0) :: [] /\
   (forall cfg, cfg ∈ [(1, 0, 0)] -> fitted_score "bse" Sample.series cfg = Ok (sc cfg)) /\
   ARIMA Sample.series (1, 1, 0) = Ok (1, 1, 0) /\
   ARIMA_fit (1, 1, 0) = Ok model_fit /\
   (length (bse model_fit) < 2)%nat) /\
  runs (ARIMATuner.grid_search 1%positive "bse" 2%positive) σ
       (visit_events "bse" 2%positive Sample.one (1, 0, 0)
        ++ [EvARIMA 2%positive (1, 1, 0); EvFit 2%positive (1, 1, 0)])
       (Raise IndexError).
Proof.
  intros lib σ sc model_fit.
  assert (grid_at σ 1%positive [1] [0; 1] [0]) as H1
    by (exists (Sample.dict [1] [0; 1] [0]); repeat split; reflexivity).
  assert (σ !! 2%positive = Some Sample.series) as H2 by reflexivity.
  assert (product [1] [0; 1] [0] = [(1, 0, 0)] ++ (1, 1, 0) :: []) as H3 by reflexivity.
  assert (forall cfg, cfg ∈ [(1, 0, 0)] ->
            fitted_score "bse" Sample.series cfg = Ok (sc cfg)) as H4
    by (intros cfg Hin; elems Hin; reflexivity).
  assert (ARIMA Sample.series (1, 1, 0) = Ok (1, 1, 0)) as H5 by reflexivity.
  assert (ARIMA_fit (1, 1, 0) = Ok model_fit) as H6 by reflexivity.
  assert (length (bse model_fit) < 2)%nat as H7 by (simpl; lia).
  split; [by repeat split|].
  exact (grid_search_bse_single_coefficient (H := lib) σ 1%positive [1] [0; 1] [0]
           2%positive Sample.series sc [(1, 0, 0)] (1, 1, 0) [] (1, 1, 0) model_fit
           H1 H2 H3 H4 H5 H6 H7).
Defined.

(** A library that refuses the order at construction. *)
Lemma scoring_helpers_propagate_witness :
  let e := OtherError "ValueError" in
  let lib := Cases.rejects e in
  let σ := Sample.store [1] [1] [0] in
  (σ !! 2%positive = Some Sample.series /\ ARIMA Sample.series (1, 1, 0) = Raise e) /\
  runs (ARIMATuner._aic_arima_model 1 1 0 2%positive) σ [EvARIMA 2%positive (1, 1, 0)]
       (Raise e) /\
  runs (ARIMATuner._bic_arima_model 1 1 0 2%positive) σ [EvARIMA 2%positive (1, 1, 0)]
       (Raise e) /\
  runs (ARIMATuner._bse_arima_model 1 1 0 2%positive) σ [EvARIMA 2%positive (1, 1, 0)]
       (Raise e).
Proof.
  intros e lib σ.
  assert (σ !! 2%positive = Some Sample.series) as H1 by reflexivity.
  assert (ARIMA Sample.series (1, 1, 0) = Raise e) as H2 by reflexivity.
  split; [by split|].
  exact (proj1 (scoring_helpers_propagate (H := lib) σ 1 1 0 2%positive Sample.series e H1)
           H2).
Defined.

Lemma grid_search_work_witness :
  let lib := Sample.table Sample.by_p in
  let σ := Sample.store [1; 2] [1] [0] in
  let sc := fun cfg => aic (Sample.by_p cfg) in
  (grid_at σ 1%positive [1; 2] [1] [0] /\
   supported "aic" /\
   σ !! 2%positive = Some Sample.series /\
   (forall cfg, cfg ∈ product [1; 2] [1] [0] ->
      fitted_score "aic" Sample.series cfg = Ok (sc cfg))) /\
  exists evs r,
    runs (ARIMATuner.grid_search 1%positive "aic" 2%positive) σ evs (Ok r) /\
    List.filter is_construction evs = map (EvARIMA 2%positive) (product [1; 2] [1] [0]) /\
    List.filter is_fitting evs = map (EvFit 2%positive) (product [1; 2] [1] [0]) /\
    List.filter is_print evs
      = map (fun cfg => EvPrint "aic" (Some (sc cfg)) cfg) (product [1; 2] [1] [0]) /\
    length (product [1; 2] [1] [0]) = (2 * 1 * 1)%nat.
Proof.
  intros lib σ sc.
  assert (grid_at σ 1%positive [1; 2] [1] [0]) as H1
    by (exists (Sample.dict [1; 2] [1] [0]); repeat split; reflexivity).
  assert (supported "aic") as H2 by (left; reflexivity).
  assert (σ !! 2%positive = Some Sample.series) as H3 by reflexivity.
  assert (forall cfg, cfg ∈ product [1; 2] [1] [0] ->
            fitted_score "aic" Sample.series cfg = Ok (sc cfg)) as H4
    by (intros cfg _; reflexivity).
  split; [by repeat split|].
  exact (grid_search_work (H := lib) σ 1%positive [1; 2] [1] [0] "aic" 2%positive
           Sample.series sc H1 H2 H3 H4).
Defined.

(** Every score NaN: the null configuration. *)
Lemma grid_search_none_iff_witness :
  let lib := Sample.table (Sample.flat PyFloat.nan) in
  let σ := Sample.store [1; 2] [1] [0] in
  let sc := fun _ : order => PyFloat.nan in
  (grid_at σ 1%positive [1; 2] [1] [0] /\
   supported "bic" /\
   σ !! 2%positive = Some Sample.series /\
   (forall cfg, cfg ∈ product [1; 2] [1] [0] ->
      fitted_score "bic" Sample.series cfg = Ok (sc cfg))) /\
  exists evs best,
    runs (ARIMATuner.grid_search 1%positive "bic" 2%positive) σ evs
         (Ok (best, {| est_train := 2%positive; est_order := best |})) /\
    (best = None <->
     forall cfg, cfg ∈ product [1; 2] [1] [0] -> PyFloat.lt (sc cfg) PyFloat.inf = false).
Proof.
  intros lib σ sc.
  assert (grid_at σ 1%positive [1; 2] [1] [0]) as H1
    by (exists (Sample.dict [1; 2] [1] [0]); repeat split; reflexivity).
  assert (supported "bic") as H2 by (right; left; reflexivity).
  assert (σ !! 2%positive = Some Sample.series) as H3 by reflexivity.
  assert (forall cfg, cfg ∈ product [1; 2] [1] [0] ->
            fitted_score "bic" Sample.series cfg = Ok (sc cfg)) as H4
    by (intros cfg _; reflexivity).
  split; [by repeat split|].
  exact (grid_search_none_iff (H := lib) σ 1%positive [1; 2] [1] [0] "bic" 2%positive
           Sample.series sc H1 H2 H3 H4).
Defined.

(** ARIMA(1,1,0) scores NaN and is passed over for ARIMA(2,1,0). *)
Lemma grid_search_skips_nan_witness :
  let lib := Cases.nan_at_p1 in
  let σ := Sample.store [1; 2] [1] [0] in
  let sc := score_of "aic" Sample.series in
  let model := {| est_train := 2%positive; est_order := Some (2, 1, 0) |} in
  let evs := visit_events "aic" 2%positive PyFloat.nan (1, 1, 0)
             ++ visit_events "aic" 2%positive Sample.two (2, 1, 0) in
  (grid_at σ 1%positive [1; 2] [1] [0] /\
   supported "aic" /\
   σ !! 2%positive = Some Sample.series /\
   (forall cfg, cfg ∈ product [1; 2] [1] [0] ->
      fitted_score "aic" Sample.series cfg = Ok (sc cfg)) /\
   runs (ARIMATuner.grid_search 1%positive "aic" 2%positive) σ evs
        (Ok (Some (2, 1, 0), model))) /\
  (2, 1, 0) ∈ product [1; 2] [1] [0] /\
  PyFloat.is_nan (sc (2, 1, 0)) = false /\
  PyFloat.lt (sc (2, 1, 0)) PyFloat.inf = true /\
  forall cfg', cfg' ∈ product [1; 2] [1] [0] -> PyFloat.is_nan (sc cfg') = false ->
    PyFloat.le (sc (2, 1, 0)) (sc cfg') = true.
Proof.
  intros lib σ sc model evs.
  assert (grid_at σ 1%positive [1; 2] [1] [0]) as H1
    by (exists (Sample.dict [1; 2] [1] [0]); repeat split; reflexivity).
  assert (supported "aic") as H2 by (left; reflexivity).
  assert (σ !! 2%positive = Some Sample.series) as H3 by reflexivity.
  assert (forall cfg, cfg ∈ product [1; 2] [1] [0] ->
            fitted_score "aic" Sample.series cfg = Ok (sc cfg)) as H4.
  { intros [[p q] d] _. unfold sc, score_of, fitted_score. simpl.
    destruct (Z.eqb p 1); reflexivity. }
  assert (runs (ARIMATuner.grid_search 1%positive "aic" 2%positive) σ evs
            (Ok (Some (2, 1, 0), model))) as H5
    by exact (runs_grid_search (H := lib) σ 1%positive [1; 2] [1] [0] "aic" 2%positive
                Sample.series sc H1 H2 H3 H4).
  split; [by repeat split|].
  exact (grid_search_skips_nan (H := lib) σ 1%positive [1; 2] [1] [0] "aic" 2%positive
           Sample.series sc (2, 1, 0) model evs H1 H2 H3 H4 H5).
Defined.

Ltac in_list := repeat first [by apply list_elem_of_here | apply list_elem_of_further].

(** The grid p in [2] inside the grid p in [2, 1]. *)
Lemma grid_search_larger_grid_witness :
  let lib := Sample.table Sample.by_p in
  let σ := Cases.store2 [2] [1] [0] [2; 1] [1] [0] in
  (grid_at σ 1%positive [2] [1] [0] /\
   grid_at σ 3%positive [2; 1] [1] [0] /\
   [2] ⊆ [2; 1] /\ [1] ⊆ [1] /\ [0] ⊆ [0] /\
   supported "aic" /\
   σ !! 2%positive = Some Sample.series /\
   (forall cfg, cfg ∈ product [2; 1] [1] [0] ->
      exists s, fitted_score "aic" Sample.series cfg = Ok s /\ PyFloat.is_nan s = false) /\
   (exists cfg s, cfg ∈ product [2] [1] [0] /\
      fitted_score "aic" Sample.series cfg = Ok s /\ PyFloat.lt s PyFloat.inf = true)) /\
  exists c c' evs evs',
    runs (ARIMATuner.grid_search 1%positive "aic" 2%positive) σ evs
         (Ok (Some c, {| est_train := 2%positive; est_order := Some c |})) /\
    runs (ARIMATuner.grid_search 3%positive "aic" 2%positive) σ evs'
         (Ok (Some c', {| est_train := 2%positive; est_order := Some c' |})) /\
    PyFloat.le (score_of "aic" Sample.series c') (score_of "aic" Sample.series c) = true.
Proof.
  intros lib σ.
  assert (grid_at σ 1%positive [2] [1] [0]) as H1
    by (exists (Sample.dict [2] [1] [0]); repeat split; reflexivity).
  assert (grid_at σ 3%positive [2; 1] [1] [0]) as H2
    by (exists (Sample.dict [2; 1] [1] [0]); repeat split; reflexivity).
  assert ([2] ⊆ [2; 1]) as H3 by (intros x Hx; elems Hx; in_list).
  assert ([1] ⊆ [1]) as H4 by (intros x Hx; exact Hx).
  assert ([0] ⊆ [0]) as H5 by (intros x Hx; exact Hx).
  assert (supported "aic") as H6 by (left; reflexivity).
  assert (σ !! 2%positive = Some Sample.series) as H7 by reflexivity.
  assert (forall cfg, cfg ∈ product [2; 1] [1] [0] ->
            exists s, fitted_score "aic" Sample.series cfg = Ok s /\
                      PyFloat.is_nan s = false) as H8.
  { intros [[p q] d] _. eexists. split; [reflexivity|]. simpl.
    destruct (Z.eqb p 1), (Z.eqb p 2); reflexivity. }
  assert (exists cfg s, cfg ∈ product [2] [1] [0] /\
            fitted_score "aic" Sample.series cfg = Ok s /\
            PyFloat.lt s PyFloat.inf = true) as H9.
  { exists (2, 1, 0), Sample.two. split; [left|split; reflexivity]. }
  split; [repeat (split; [assumption|]); assumption|].
  exact (grid_search_larger_grid (H := lib) σ 1%positive 3%positive [2] [1] [0]
           [2; 1] [1] [0] "aic" 2%positive Sample.series H1 H2 H3 H4 H5 H6 H7 H8 H9).
Defined.

(** The lists [1, 2] and [2, 1, 2] for p. *)
Lemma grid_search_reordered_witness :
  let lib := Sample.table Sample.by_p in
  let σ := Cases.store2 [1; 2] [1] [0] [2; 1; 2] [1] [0] in
  (grid_at σ 1%positive [1; 2] [1] [0] /\
   grid_at σ 3%positive [2; 1; 2] [1] [0] /\
   (forall x : Z, x ∈ [1; 2] <-> x ∈ [2; 1; 2]) /\
   (forall x : Z, x ∈ [1] <-> x ∈ [1]) /\
   (forall x : Z, x ∈ [0] <-> x ∈ [0]) /\
   supported "aic" /\
   σ !! 2%positive = Some Sample.series /\
   (forall cfg, cfg ∈ product [1; 2] [1] [0] ->
      exists s, fitted_score "aic" Sample.series cfg = Ok s /\ PyFloat.is_nan s = false) /\
   (exists cfg s, cfg ∈ product [1; 2] [1] [0] /\
      fitted_score "aic" Sample.series cfg = Ok s /\ PyFloat.lt s PyFloat.inf = true)) /\
  exists c c' evs evs',
    runs (ARIMATuner.grid_search 1%positive "aic" 2%positive) σ evs
         (Ok (Some c, {| est_train := 2%positive; est_order := Some c |})) /\
    runs (ARIMATuner.grid_search 3%positive "aic" 2%positive) σ evs'
         (Ok (Some c', {| est_train := 2%positive; est_order := Some c' |})) /\
    PyFloat.eq (score_of "aic" Sample.series c) (score_of "aic" Sample.series c') = true.
Proof.
  intros lib σ.
  assert (grid_at σ 1%positive [1; 2] [1] [0]) as H1
    by (exists (Sample.dict [1; 2] [1] [0]); repeat split; reflexivity).
  assert (grid_at σ 3%positive [2; 1; 2] [1] [0]) as H2
    by (exists (Sample.dict [2; 1; 2] [1] [0]); repeat split; reflexivity).
  assert (forall x : Z, x ∈ [1; 2] <-> x ∈ [2; 1; 2]) as H3
    by (intros x; split; intros Hx; elems Hx; in_list).
  assert (forall x : Z, x ∈ [1] <-> x ∈ [1]) as H4 by (intros x; reflexivity).
  assert (forall x : Z, x ∈ [0] <-> x ∈ [0]) as H5 by (intros x; reflexivity).
  assert (supported "aic") as H6 by (left; reflexivity).
  assert (σ !! 2%positive = Some Sample.series) as H7 by reflexivity.
  assert (forall cfg, cfg ∈ product [1; 2] [1] [0] ->
            exists s, fitted_score "aic" Sample.series cfg = Ok s /\
                      PyFloat.is_nan s = false) as H8.
  { intros [[p q] d] _. eexists. split; [reflexivity|]. simpl.
    destruct (Z.eqb p 1), (Z.eqb p 2); reflexivity. }
  assert (exists cfg s, cfg ∈ product [1; 2] [1] [0] /\
            fitted_score "aic" Sample.series cfg = Ok s /\
            PyFloat.lt s PyFloat.inf = true) as H9.
  { exists (1, 1, 0), Sample.one. split; [left|split; reflexivity]. }
  split; [repeat (split; [assumption|]); assumption|].
  exact (grid_search_reordered (H := lib) σ 1%positive 3%positive [1; 2] [1] [0]
           [2; 1; 2] [1] [0] "aic" 2%positive Sample.series H1 H2 H3 H4 H5 H6 H7 H8 H9).
Defined.

(** A search that returns: both fits had succeeded. *)
Lemma grid_search_returns_only_if_all_fit_witness :
  let lib := Sample.table Sample.by_p in
  let σ := Sample.store [1; 2] [1] [0] in
  let evs := visit_events "aic" 2%positive Sample.one (1, 1, 0)
             ++ visit_events "aic" 2%positive Sample.two (2, 1, 0) in
  let r := (Some (1, 1, 0), {| est_train := 2%positive; est_order := Some (1, 1, 0) |}) in
  (grid_at σ 1%positive [1; 2] [1] [0] /\
   supported "aic" /\
   σ !! 2%positive = Some Sample.series /\
   runs (ARIMATuner.grid_search 1%positive "aic" 2%positive) σ evs (Ok r)) /\
  forall cfg, cfg ∈ product [1; 2] [1] [0] ->
    exists s, fitted_score "aic" Sample.series cfg = Ok s.
Proof.
  intros lib σ evs r.
  assert (grid_at σ 1%positive [1; 2] [1] [0]) as H1
    by (exists (Sample.dict [1; 2] [1] [0]); repeat split; reflexivity).
  assert (supported "aic") as H2 by (left; reflexivity).
  assert (σ !! 2%positive = Some Sample.series) as H3 by reflexivity.
  assert (runs (ARIMATuner.grid_search 1%positive "aic" 2%positive) σ evs (Ok r)) as H4
    by exact (runs_grid_search (H := lib) σ 1%positive [1; 2] [1] [0] "aic" 2%positive
                Sample.series (fun cfg => aic (Sample.by_p cfg)) H1 H2 H3
                (fun cfg _ => eq_refl)).
  split; [repeat (split; [assumption|]); assumption|].
  exact (grid_search_returns_only_if_all_fit (H := lib) σ 1%positive [1; 2] [1] [0] "aic"
           2%positive Sample.series evs r H1 H2 H3 H4).
Defined.
